(** * DiscordUtil: outbound delivery, identifier resolution, presence
      translation and the guild structure walk of mx-puppet-discord

    A shallow embedding of [src/discord/DiscordUtil.ts].  The methods
    [getDiscordChan], [sendToDiscord], [discordEscape], [updatePresence],
    [iterateGuildStructure] and [getUserById] of the class [DiscordUtil] are
    transcribed as Rocq functions:

    - the remote network (channel send, webhook lookup, creation and send,
      user fetch, opening a direct-message channel) is a set of oracles
      carried by the handles themselves; each of them answers with a value or
      rejects with an error, the way the awaited promises do;
    - an [async] method is a computation in the monad [Async]: it produces
      the sequence of observable operations it performed (log lines, network
      calls, bridge setters, callbacks) and either a value or the error it
      rejected with;
    - JavaScript truthiness of [string | null] fields is [truthy]; a
      [Collection] is the list its [array()] enumerates, [get] and [has]
      being searches by key.

    Strings are [String.string]; the only case conversion the source performs
    is on the activity type, an upper-case ASCII identifier. *)

From Stdlib Require Import String Ascii List Bool Arith ZArith Lia.
From Stdlib Require Import Init.Byte.
Import ListNotations.
Open Scope list_scope.
Open Scope string_scope.

Set Implicit Arguments.

(* ================================================================== *)
(** * Part I.  The program                                             *)
(* ================================================================== *)

(** ** JavaScript values used by the source *)

(** A rejected promise or a thrown exception carries an error object; only
    its message matters here. *)
Definition Error : Type := string.

Inductive result (A : Type) : Type :=
| Ok (a : A)
| Err (e : Error).
Arguments Ok {A} a.
Arguments Err {A} e.

(** Reading a property of [null]. *)
Definition TypeError : Error := "TypeError: Cannot read property of null".

(** The double quote and the line feed, as one-character strings. *)
Definition dquote : string := String (ascii_of_nat 34) EmptyString.
Definition newline : string := String (ascii_of_nat 10) EmptyString.

(** [if (s)] for [s : string]. *)
Definition nonempty (s : string) : bool := negb (s =? "")%string.

(** [if (o)] for [o : string | null | undefined]. *)
Definition truthy (o : option string) : bool :=
  match o with
  | Some s => nonempty s
  | None => false
  end.

(** [o || undefined] for [o : string | null | undefined]. *)
Definition orUndefined (o : option string) : option string :=
  if truthy o then o else None.

(** [if (o)] for an object reference. *)
Definition present {A : Type} (o : option A) : bool :=
  match o with
  | Some _ => true
  | None => false
  end.

(** [s.startsWith(p)]. *)
Definition startsWith (p s : string) : bool := String.prefix p s.

(** [s.substring(n)]: the characters of [s] from index [n] on. *)
Definition substringFrom (n : nat) (s : string) : string :=
  String.substring n (String.length s - n) s.

(** [c.toLowerCase()] and [c.toUpperCase()] on one ASCII character. *)
Definition lowerChar (c : ascii) : ascii :=
  let n := nat_of_ascii c in
  if ((65 <=? n) && (n <=? 90))%nat then ascii_of_nat (n + 32) else c.

Definition upperChar (c : ascii) : ascii :=
  let n := nat_of_ascii c in
  if ((97 <=? n) && (n <=? 122))%nat then ascii_of_nat (n - 32) else c.

Fixpoint toLowerCase (s : string) : string :=
  match s with
  | EmptyString => EmptyString
  | String c r => String (lowerChar c) (toLowerCase r)
  end.

(** [lower.charAt(0).toUpperCase() + lower.substring(1)]. *)
Definition capitalizeFirst (lower : string) : string :=
  match lower with
  | EmptyString => EmptyString
  | String c r => String (upperChar c) r
  end.

(** [parts.join(sep)]. *)
Definition join (sep : string) (parts : list string) : string :=
  String.concat sep parts.

(** [list.includes(x)] on an array of strings, and [collection.has(key)] on
    the keys of a collection. *)
Definition includes (l : list string) (x : string) : bool :=
  existsb (String.eqb x) l.

(** ** The [Async] monad: observable operations and rejection *)

Section AsyncMonad.

Variable E : Type.

(** The operations performed so far, and the value or the rejection. *)
Definition Async (A : Type) : Type := (list E * result A)%type.

Definition ret {A : Type} (a : A) : Async A := ([], Ok a).

Definition throw {A : Type} (e : Error) : Async A := ([], Err e).

Definition bind {A B : Type} (m : Async A) (k : A -> Async B) : Async B :=
  match m with
  | (t, Ok a) => let (t', r) := k a in ((t ++ t')%list, r)
  | (t, Err e) => (t, Err e)
  end.

(** [try { m } catch (err) { handler err }]. *)
Definition tryCatch {A : Type} (m : Async A) (handler : Error -> Async A)
  : Async A :=
  match m with
  | (t, Ok a) => (t, Ok a)
  | (t, Err e) => let (t', r) := handler e in ((t ++ t')%list, r)
  end.

(** A call that is no observable operation and may throw. *)
Definition fromResult {A : Type} (r : result A) : Async A := ([], r).

(** An operation that cannot fail. *)
Definition emit (ev : E) : Async unit := ([ev], Ok tt).

(** [await op]: the operation is performed and the oracle's answer is the
    value of the [await], a rejection being rethrown. *)
Definition await {A : Type} (ev : E) (answer : result A) : Async A :=
  ([ev], answer).

Definition trace {A : Type} (m : Async A) : list E := fst m.
Definition outcome {A : Type} (m : Async A) : result A := snd m.

End AsyncMonad.

Arguments ret {E A} a.
Arguments throw {E A} e.
Arguments bind {E A B} m k.
Arguments tryCatch {E A} m handler.
Arguments fromResult {E A} r.
Arguments emit {E} ev.
Arguments await {E A} ev answer.
Arguments trace {E A} m.
Arguments outcome {E A} m.

Declare Scope async_scope.
Delimit Scope async_scope with async.
Notation "x <- m ;; k" := (bind m (fun x => k))
  (at level 61, m at next level, right associativity) : async_scope.
Notation "m ;; k" := (bind m (fun _ => k))
  (at level 61, right associativity) : async_scope.
Open Scope async_scope.

(** ** Data of the delivery strategist *)

(** [ISendingUser] of mx-puppet-bridge: the home-network author. *)
Record ISendingUser : Type := {
  displayname : string;
  avatarUrl : option string;
  mxid : string
}.

(** [IDiscordSendFile]: a file handed over by the bridge. *)
Record IDiscordSendFile : Type := {
  buffer : list byte;
  filename : string;
  url : string;
  isImage : bool
}.

Record EmbedImage : Type := { image_url : string }.

Record EmbedAuthor : Type := {
  author_name : string;
  author_iconURL : option string;
  author_url : option string
}.

Record EmbedField : Type := { field_name : string; field_value : string }.

(** [Discord.MessageEmbed], with the fields the source reads or sets.  The
    setters below are those of the client library, which is not part of this
    repository: [setDescription], [setImage] and [setAuthor] store what they
    are given; [setTitle] stores its argument turned into a string; [addField]
    refuses an empty name or value. *)
Record MessageEmbed : Type := {
  title : option string;
  description : option string;
  image : option EmbedImage;
  author : option EmbedAuthor;
  fields : list EmbedField
}.

(** [new Discord.MessageEmbed()]. *)
Definition newEmbed : MessageEmbed :=
  {| title := None; description := None; image := None; author := None;
     fields := [] |}.

(** [Util.resolveString(x)] of the client library on [x : string |
    undefined]: a string is itself, a missing one is the text [undefined]. *)
Definition resolveString (o : option string) : string :=
  match o with
  | Some s => s
  | None => "undefined"
  end.

(** [embed.setTitle(t)]: the title becomes [resolveString(t)]. *)
Definition setTitle (t : option string) (e : MessageEmbed) : MessageEmbed :=
  {| title := Some (resolveString t); description := description e;
     image := image e; author := author e; fields := fields e |}.

Definition setDescription (d : string) (e : MessageEmbed) : MessageEmbed :=
  {| title := title e; description := Some d; image := image e;
     author := author e; fields := fields e |}.

Definition setImage (u : string) (e : MessageEmbed) : MessageEmbed :=
  {| title := title e; description := description e;
     image := Some {| image_url := u |};
     author := author e; fields := fields e |}.

Definition setAuthor (n : string) (icon : option string) (link : string)
  (e : MessageEmbed) : MessageEmbed :=
  {| title := title e; description := description e; image := image e;
     author := Some {| author_name := n; author_iconURL := icon;
                       author_url := Some link |};
     fields := fields e |}.

(** The two errors [embed.addField(name, value)] throws. *)
Definition EmbedFieldNameError : Error :=
  "RangeError [EMBED_FIELD_NAME]: MessageEmbed field names may not be empty.".

Definition EmbedFieldValueError : Error :=
  "RangeError [EMBED_FIELD_VALUE]: MessageEmbed field values may not be empty.".

(** [embed.addField(n, v)]: the field is appended, unless the name or the
    value is empty, which the library refuses by throwing. *)
Definition addField (n v : string) (e : MessageEmbed) : result MessageEmbed :=
  if negb (nonempty n) then Err EmbedFieldNameError
  else if negb (nonempty v) then Err EmbedFieldValueError
  else
    Ok {| title := title e; description := description e; image := image e;
          author := author e;
          fields :=
            (fields e ++ [{| field_name := n; field_value := v |}])%list |}.

(** [`${obj}`] for the plain object stored in [embed.image]. *)
Definition imageToString (i : EmbedImage) : string := "[object Object]".

(** [msg: string | Discord.MessageEmbed | IDiscordSendFile]. *)
Inductive Payload : Type :=
| PlainText (body : string)
| RichEmbed (embed : MessageEmbed)
| FileAttachment (file : IDiscordSendFile).

Record MessageAttachment : Type := {
  attachment_data : list byte;
  attachment_name : string
}.

(** [sendThing: string | Discord.MessageAdditions]. *)
Inductive SendThing : Type :=
| SendString (s : string)
| SendEmbed (e : MessageEmbed)
| SendAttachment (a : MessageAttachment).

(** [Discord.WebhookMessageOptions & { split: true }]. *)
Record WebhookMessageOptions : Type := {
  username : string;
  avatarURL : option string;
  embeds : list MessageEmbed;
  split : bool;
  files : list MessageAttachment
}.

Record Message : Type := { message_id : string }.

(** [Discord.Message | Discord.Message[]]. *)
Inductive Sent : Type :=
| OneMessage (m : Message)
| ManyMessages (ms : list Message).

Record Webhook : Type := { hook_id : string; hook_name : string }.

(** What a text channel offers for webhooks: [chan.fetchWebhooks()],
    [chan.createWebhook(name, { reason })] and [hook.send(...)].  Each is a
    network call that resolves or rejects. *)
Record WebhookApi : Type := {
  fetchWebhooks : result (list Webhook);
  createWebhook : string -> string -> result Webhook;
  hookSend : Webhook -> option string -> WebhookMessageOptions -> result Sent
}.

(** The channel classes of the client library that the source tells apart
    with [instanceof]; a class extending [TextChannel] counts as one, and
    [VoiceChannel] stands for every other guild channel class. *)
Inductive ChannelClass : Type :=
| TextChannel (api : WebhookApi)
| DMChannel
| GroupDMChannel
| CategoryChannel
| VoiceChannel.

(** A channel handle.  [parentID] and [members] (the ids of the users who
    see the channel) are those of a guild channel.  [clientUserBot] is
    [chan.client.user!.bot]: the handle belongs to a logged-in client, whose
    own account is there.  [send] is [chan.send(content)] and
    [chan.send(content, extra)]. *)
Record Channel : Type := {
  chan_id : string;
  chan_class : ChannelClass;
  parentID : option string;
  members : list string;
  clientUserBot : bool;
  send : SendThing -> option MessageEmbed -> result Sent
}.

(** [chan instanceof Discord.TextChannel] and its siblings. *)
Definition isTextChannel (c : Channel) : bool :=
  match chan_class c with TextChannel _ => true | _ => false end.

Definition isGroupDMChannel (c : Channel) : bool :=
  match chan_class c with GroupDMChannel => true | _ => false end.

Definition isCategoryChannel (c : Channel) : bool :=
  match chan_class c with CategoryChannel => true | _ => false end.

(** The operations [sendToDiscord] performs, in the order performed. *)
Inductive DeliveryEvent : Type :=
| LogDebug (text : string)
| LogWarn (text : string) (err : Error)
| CallFetchWebhooks
| CallCreateWebhook (name reason : string)
| CallHookSend (hook : Webhook) (content : option string)
    (opts : WebhookMessageOptions)
| CallChanSend (content : SendThing) (extra : option MessageEmbed).

Definition logDebug (text : string) : Async DeliveryEvent unit :=
  emit (LogDebug text).

Definition logWarn (text : string) (err : Error) : Async DeliveryEvent unit :=
  emit (LogWarn text err).

(** [await chan.send(content, extra)]. *)
Definition chanSend (chan : Channel) (content : SendThing)
  (extra : option MessageEmbed) : Async DeliveryEvent Sent :=
  await (CallChanSend content extra) (send chan content extra).

(** ** The bridge runtime [this.app] *)

Record MatrixMessage : Type := { body : string; msgtype : string }.

(** A user of the remote network; [createDM] is [user.createDM()], a network
    call resolving to the direct-message channel with that user. *)
Record User : Type := {
  user_id : string;
  user_name : string;
  createDM : result Channel
}.

(** [IRemoteUser] of mx-puppet-bridge, as [getRemoteUser] builds it. *)
Record RemoteUser : Type := {
  remote_puppetId : Z;
  remote_userId : string;
  remote_name : string
}.

(** The collaborators reached through [this.app], none of them in this
    file: [app.matrix.parseMatrixMessage], [app.puppets[puppetId]] (only
    whether there is one matters), [app.store.getBridgedGuilds],
    [app.store.getBridgedChannels] and [app.matrix.getRemoteUser]. *)
Record App : Type := {
  parseMatrixMessage : Z -> MatrixMessage -> string;
  hasPuppet : Z -> bool;
  getBridgedGuilds : Z -> list string;
  getBridgedChannels : Z -> list string;
  getRemoteUser : Z -> User -> RemoteUser
}.

(** ** Data of the resolvers, the presence translator and the walker *)

Record GuildMember : Type := { member_user : User }.

(** [Discord.Guild]: its channel and member tables in enumeration order, and
    [guild.client.user!.id], the id of the acting account. *)
Record Guild : Type := {
  guild_id : string;
  guild_channels : list Channel;
  guild_members : list GuildMember;
  guild_clientUserId : string
}.

(** [Discord.Client]: the channel cache, the guild list, the friends of the
    acting account ([client.user!.relationships.friends]) and
    [client.users.fetch(id)], a network call that resolves or rejects. *)
Record Client : Type := {
  client_channels : list Channel;
  client_guilds : list Guild;
  client_friends : list User;
  usersFetch : string -> result (option User)
}.

Inductive ResolveEvent : Type :=
| CallUsersFetch (id : string)
| CallCreateDM (userId : string).

(** [collection.get(id)] on a channel table. *)
Definition getChannel (table : list Channel) (id : string) : option Channel :=
  find (fun c => (chan_id c =? id)%string) table.

(** [presence.status]. *)
Inductive PresenceStatus : Type := Online | Idle | Dnd | Offline.

(** The three presence states of the home network. *)
Inductive MatrixPresence : Type :=
| MatrixOnline
| MatrixOffline
| MatrixUnavailable.

Record Emoji : Type := { emoji_name : string }.

Record Activity : Type := {
  activity_type : string;
  activity_name : string;
  activity_emoji : option Emoji;
  activity_state : option string
}.

Record Presence : Type := {
  status : PresenceStatus;
  activities : list Activity;
  presence_user : option User
}.

(** [app.puppet.setUserPresence] and [app.puppet.setUserStatus], calls into
    the bridge that are recorded and taken to return. *)
Inductive PresenceEvent : Type :=
| SetUserPresence (remoteUser : RemoteUser) (presence : MatrixPresence)
| SetUserStatus (remoteUser : RemoteUser) (statusMsg : string).

(** The two callbacks of the guild structure walk, recorded and taken to
    return. *)
Inductive WalkEvent : Type :=
| CatCallback (cat : Channel)
| ChanCallback (chan : Channel).

(** [cat.children] of the client library: the channels of the guild whose
    [parentID] is the id of the category. *)
Definition children (guild : Guild) (cat : Channel) : list Channel :=
  filter (fun c => match parentID c with
                   | Some p => (p =? chan_id cat)%string
                   | None => false
                   end)
         (guild_channels guild).

(** [for (const x of xs) { body }] without early exit. *)
Fixpoint forEach {E A : Type} (xs : list A) (body : A -> Async E unit)
  : Async E unit :=
  match xs with
  | [] => ret tt
  | x :: rest => body x ;; forEach rest body
  end.

Section DiscordUtil.

Variable app : App.

(** discordEscape, lines 168-173. *)
Definition discordEscape (msg : string) : string :=
  parseMatrixMessage app (-1) {| body := msg; msgtype := "m.text" |}.

(** *** Direct send, lines 72-79 *)
Definition directSend (chan : Channel) (sendThing : SendThing)
  (replyEmbed : option MessageEmbed) : Async DeliveryEvent Sent :=
  logDebug "Not in relay mode, just sending as user" ;;
  if present replyEmbed && clientUserBot chan
  then chanSend chan sendThing replyEmbed
  else chanSend chan sendThing None.

(** *** Webhook lookup and creation, lines 83-97 *)
Definition obtainHook (api : WebhookApi)
  : Async DeliveryEvent (option Webhook) :=
  tryCatch
    (hooks <- await CallFetchWebhooks (fetchWebhooks api) ;;
     match find (fun h => (hook_name h =? "_matrix")%string) hooks with
     | Some h => ret (Some h)
     | None =>
         let reason := "Allow bridging matrix messages to discord nicely" in
         tryCatch
           (h <- await (CallCreateWebhook "_matrix" reason)
                   (createWebhook api "_matrix" reason) ;;
            ret (Some h))
           (fun err =>
              logWarn ("Unable to create " ++ dquote ++ "_matrix" ++ dquote
                       ++ " webhook") err ;;
              ret None)
     end)
    (fun err => logWarn "Missing webhook permissions" err ;; ret None).

(** *** Send through a webhook, lines 98-114 *)
Definition webhookSend (api : WebhookApi) (hook : Webhook)
  (sendThing : SendThing) (asUser : ISendingUser)
  (replyEmbed : option MessageEmbed) : Async DeliveryEvent Sent :=
  let hookOpts :=
    {| username := displayname asUser;
       avatarURL := orUndefined (avatarUrl asUser);
       embeds := match replyEmbed with Some r => [r] | None => [] end;
       split := true;
       files := [] |} in
  match sendThing with
  | SendString s =>
      await (CallHookSend hook (Some s) hookOpts)
            (hookSend api hook (Some s) hookOpts)
  | SendAttachment a =>
      let opts :=
        {| username := username hookOpts; avatarURL := avatarURL hookOpts;
           embeds := embeds hookOpts; split := split hookOpts;
           files := [a] |} in
      await (CallHookSend hook None opts) (hookSend api hook None opts)
  | SendEmbed e =>
      let opts :=
        {| username := username hookOpts; avatarURL := avatarURL hookOpts;
           embeds := e :: embeds hookOpts; split := split hookOpts;
           files := files hookOpts |} in
      await (CallHookSend hook None opts) (hookSend api hook None opts)
  end.

(** *** Webhook relay, lines 81-116: [Some] when the message went out
    through a webhook (the method returns there), [None] to go on. *)
Definition webhookRelay (chan : Channel) (sendThing : SendThing)
  (asUser : ISendingUser) (replyEmbed : option MessageEmbed)
  : Async DeliveryEvent (option Sent) :=
  match chan_class chan with
  | TextChannel api =>
      logDebug "Trying to send as webhook..." ;;
      hook <- obtainHook api ;;
      match hook with
      | Some h =>
          sent <- webhookSend api h sendThing asUser replyEmbed ;;
          ret (Some sent)
      | None =>
          logDebug "Couldn't send as webhook" ;;
          ret None
      end
  | _ => ret None
  end.

(** *** Embed relay, lines 119-142 *)
Definition embedOfPayload (msg : Payload) : MessageEmbed :=
  match msg with
  | PlainText s => setDescription s newEmbed
  | RichEmbed m =>
      match image m with
      | Some i => setImage (image_url i) (setTitle (title m) newEmbed)
      | None => newEmbed
      end
  | FileAttachment f =>
      if isImage f
      then setImage (url f) (setTitle (Some (filename f)) newEmbed)
      else
        let filename := discordEscape (filename f) in
        setDescription ("Uploaded a file `" ++ filename ++ "`: " ++ url f)
          newEmbed
  end.

(** Lines 136-139; [replyEmbed.author!.name] reads through a null author
    when the reply embed has none, and [addField] throws on an empty author
    name. *)
Definition addReplyFields (replyEmbed : option MessageEmbed)
  (embed : MessageEmbed) : Async DeliveryEvent MessageEmbed :=
  match replyEmbed with
  | Some r =>
      match description r with
      | Some d =>
          if nonempty d
          then
            match author r with
            | Some a =>
                embed <- fromResult
                           (addField "Replying to" (author_name a) embed) ;;
                fromResult (addField "Reply text" d embed)
            | None => throw TypeError
            end
          else ret embed
      | None => ret embed
      end
  | None => ret embed
  end.

Definition embedRelay (chan : Channel) (msg : Payload)
  (asUser : ISendingUser) (replyEmbed : option MessageEmbed)
  : Async DeliveryEvent Sent :=
  logDebug "Trying to send as embed..." ;;
  embed <- addReplyFields replyEmbed (embedOfPayload msg) ;;
  let embed :=
    setAuthor (displayname asUser) (orUndefined (avatarUrl asUser))
      ("https://matrix.to/#/" ++ mxid asUser) embed in
  chanSend chan (SendEmbed embed) None.

(** *** Prefixed plain-text relay, lines 143-165 *)
Definition prefixedText (msg : Payload) (asUser : ISendingUser) : string :=
  let displayname := discordEscape (displayname asUser) in
  match msg with
  | PlainText s => "**" ++ displayname ++ "**: " ++ s
  | RichEmbed m =>
      match image m with
      | Some i =>
          match title m with
          | Some t =>
              if nonempty t
              then
                let filename := discordEscape t in
                "**" ++ displayname ++ "** uploaded a file `" ++ filename
                     ++ "`: " ++ imageToString i
              else "**" ++ displayname ++ "** uploaded a file: "
                        ++ imageToString i
          | None => "**" ++ displayname ++ "** uploaded a file: "
                         ++ imageToString i
          end
      | None => ""
      end
  | FileAttachment f =>
      let filename := discordEscape (filename f) in
      "**" ++ displayname ++ "** uploaded a file `" ++ filename ++ "`: "
           ++ url f
  end.

(** Lines 162-164. *)
Definition replySuffix (replyEmbed : option MessageEmbed) : string :=
  match replyEmbed with
  | Some r =>
      match description r with
      | Some d => if nonempty d then newline ++ ">>> " ++ d else ""
      | None => ""
      end
  | None => ""
  end.

Definition plainRelay (chan : Channel) (msg : Payload)
  (asUser : ISendingUser) (replyEmbed : option MessageEmbed)
  : Async DeliveryEvent Sent :=
  logDebug "Prepending sender information to send the message out..." ;;
  let sendMsg := prefixedText msg asUser ++ replySuffix replyEmbed in
  chanSend chan (SendString sendMsg) None.

(** *** sendToDiscord, lines 59-166.  The source takes a text, DM or group
    DM channel; any class other than [TextChannel] skips the webhook relay. *)
Definition toSendThing (msg : Payload) : SendThing :=
  match msg with
  | PlainText s => SendString s
  | RichEmbed e => SendEmbed e
  | FileAttachment f =>
      SendAttachment {| attachment_data := buffer f;
                        attachment_name := filename f |}
  end.

Definition sendToDiscord (chan : Channel) (msg : Payload)
  (asUser : option ISendingUser) (replyEmbed : option MessageEmbed)
  : Async DeliveryEvent Sent :=
  logDebug "Sending something to discord..." ;;
  let sendThing := toSendThing msg in
  match asUser with
  | None => directSend chan sendThing replyEmbed
  | Some asUser =>
      viaHook <- webhookRelay chan sendThing asUser replyEmbed ;;
      match viaHook with
      | Some sent => ret sent
      | None =>
          if clientUserBot chan
          then embedRelay chan msg asUser replyEmbed
          else plainRelay chan msg asUser replyEmbed
      end
  end.

(** *** getUserById, lines 305-325 *)

(** Lines 306-311: the first guild, in order, with a member of that id. *)
Fixpoint findMember (guilds : list Guild) (id : string) : option User :=
  match guilds with
  | [] => None
  | guild :: rest =>
      match find (fun m => (user_id (member_user m) =? id)%string)
                 (guild_members guild) with
      | Some a => Some (member_user a)
      | None => findMember rest id
      end
  end.

Definition getUserById (client : Client) (id : string)
  : Async ResolveEvent (option User) :=
  match findMember (client_guilds client) id with
  | Some user => ret (Some user)
  | None =>
      match find (fun u => (user_id u =? id)%string)
                 (client_friends client) with
      | Some user => ret (Some user)
      | None =>
          user <- await (CallUsersFetch id) (usersFetch client id) ;;
          match user with
          | Some user => ret (Some user)
          | None => ret None
          end
      end
  end.

(** *** getDiscordChan, lines 28-57 *)

(** Lines 40-45. *)
Fixpoint findGuildTextChannel (guilds : list Guild) (id : string)
  : option Channel :=
  match guilds with
  | [] => None
  | guild :: rest =>
      match getChannel (guild_channels guild) id with
      | Some c =>
          if isTextChannel c then Some c else findGuildTextChannel rest id
      | None => findGuildTextChannel rest id
      end
  end.

Definition getDiscordChan (client : Client) (id : string)
  : Async ResolveEvent (option Channel) :=
  if negb (startsWith "dm-" id)
  then
    match getChannel (client_channels client) id with
    | Some chan =>
        if isGroupDMChannel chan || isTextChannel chan
        then ret (Some chan)
        else ret (findGuildTextChannel (client_guilds client) id)
    | None => ret (findGuildTextChannel (client_guilds client) id)
    end
  else
    let lookupId := substringFrom (String.length "dm-") id in
    user <- getUserById client lookupId ;;
    match user with
    | None => ret None
    | Some user =>
        chan <- await (CallCreateDM (user_id user)) (createDM user) ;;
        ret (Some chan)
    end.

(** *** updatePresence, lines 175-216 *)

(** Lines 183-188. *)
Definition matrixPresenceOf (s : PresenceStatus) : MatrixPresence :=
  match s with
  | Online => MatrixOnline
  | Idle => MatrixUnavailable
  | Dnd => MatrixUnavailable
  | Offline => MatrixOffline
  end.

(** Lines 194-209: the status line one activity renders to. *)
Definition statusOfActivity (activity : Activity) : string :=
  let statusParts :=
    if negb (activity_type activity =? "CUSTOM_STATUS")%string
    then
      let lower := toLowerCase (activity_type activity) in
      (capitalizeFirst lower
         :: (if nonempty (activity_name activity)
             then [activity_name activity] else []))%list
    else
      ((match activity_emoji activity with
        | Some e => [emoji_name e]
        | None => []
        end)
       ++ (match activity_state activity with
           | Some st => if nonempty st then [st] else []
           | None => []
           end))%list
  in
  join " " statusParts.

(** Lines 190-210: the loop over the activities, [statusMsg] being the
    value left by the previous round.  [None] is the [return] of line 192,
    which leaves the method; [Some s] is the loop running to its end with
    [statusMsg = s]. *)
Fixpoint scanActivities (acts : list Activity) (statusMsg : string)
  : option string :=
  match acts with
  | [] => Some statusMsg
  | activity :: rest =>
      if negb (statusMsg =? "")%string
      then None
      else scanActivities rest (statusOfActivity activity)
  end.

Definition updatePresence (puppetId : Z) (presence : option Presence)
  : Async PresenceEvent unit :=
  if negb (hasPuppet app puppetId) then ret tt
  else
    match presence with
    | None => ret tt
    | Some presence =>
        match presence_user presence with
        | None => ret tt
        | Some user =>
            let matrixPresence := matrixPresenceOf (status presence) in
            match scanActivities (activities presence) "" with
            | None => ret tt
            | Some statusMsg =>
                let remoteUser := getRemoteUser app puppetId user in
                emit (SetUserPresence remoteUser matrixPresence) ;;
                if nonempty statusMsg
                then emit (SetUserStatus remoteUser statusMsg)
                else ret tt
            end
        end
    end.

(** *** iterateGuildStructure, lines 264-303 *)

(** The allowlist test of lines 275 and 290, negated: the channel is not
    skipped. *)
Definition bridged (bridgedGuilds bridgedChannels : list string)
  (guild : Guild) (chan : Channel) : bool :=
  negb (negb (includes bridgedGuilds (guild_id guild))
        && negb (includes bridgedChannels (chan_id chan))).

(** Lines 289-300: the children of one category, [doCat] telling whether
    the category has been announced. *)
Fixpoint iterateChildren (bridgedGuilds bridgedChannels : list string)
  (guild : Guild) (cat : Channel) (chans : list Channel) (doCat : bool)
  : Async WalkEvent unit :=
  match chans with
  | [] => ret tt
  | chan :: rest =>
      if negb (bridged bridgedGuilds bridgedChannels guild chan)
      then iterateChildren bridgedGuilds bridgedChannels guild cat rest doCat
      else if isTextChannel chan
              && includes (members chan) (guild_clientUserId guild)
      then
        (if negb doCat then emit (CatCallback cat) else ret tt) ;;
        emit (ChanCallback chan) ;;
        iterateChildren bridgedGuilds bridgedChannels guild cat rest true
      else iterateChildren bridgedGuilds bridgedChannels guild cat rest doCat
  end.

Definition iterateGuildStructure (puppetId : Z) (guild : Guild)
  : Async WalkEvent unit :=
  let bridgedGuilds := getBridgedGuilds app puppetId in
  let bridgedChannels := getBridgedChannels app puppetId in
  forEach (guild_channels guild) (fun chan =>
    if negb (bridged bridgedGuilds bridgedChannels guild chan)
    then ret tt
    else if negb (truthy (parentID chan))
            && isTextChannel chan
            && includes (members chan) (guild_clientUserId guild)
    then emit (ChanCallback chan)
    else ret tt) ;;
  forEach (guild_channels guild) (fun cat =>
    if negb (isCategoryChannel cat) then ret tt
    else if includes (members cat) (guild_clientUserId guild)
    then iterateChildren bridgedGuilds bridgedChannels guild cat
           (children guild cat) false
    else ret tt).

End DiscordUtil.


(** ** Observations on what a delivery did *)

(** The send operations among the events: [chan.send] and [hook.send]. *)
Definition isSend (ev : DeliveryEvent) : bool :=
  match ev with
  | CallChanSend _ _ => true
  | CallHookSend _ _ _ => true
  | _ => false
  end.

Definition sendsOf (t : list DeliveryEvent) : list DeliveryEvent :=
  filter isSend t.

Definition isWarning (ev : DeliveryEvent) : bool :=
  match ev with
  | LogWarn _ _ => true
  | _ => false
  end.

Definition warningsOf (t : list DeliveryEvent) : list DeliveryEvent :=
  filter isWarning t.

(** The webhook operations: lookup and creation. *)
Definition isWebhookLookup (ev : DeliveryEvent) : bool :=
  match ev with
  | CallFetchWebhooks => true
  | CallCreateWebhook _ _ => true
  | _ => false
  end.

(** What the remote network answered to a send operation on [chan]. *)
Definition answerOf (chan : Channel) (ev : DeliveryEvent)
  : option (result Sent) :=
  match ev with
  | CallChanSend content extra => Some (send chan content extra)
  | CallHookSend hook content opts =>
      match chan_class chan with
      | TextChannel api => Some (hookSend api hook content opts)
      | _ => None
      end
  | _ => None
  end.

(** Webhook lookup or creation is rejected on this text channel: the list
    cannot be fetched, or it holds no webhook named [_matrix] and one cannot
    be created. *)
Definition webhookDenied (api : WebhookApi) : bool :=
  match fetchWebhooks api with
  | Err _ => true
  | Ok hooks =>
      match find (fun h => (hook_name h =? "_matrix")%string) hooks with
      | Some _ => false
      | None =>
          match createWebhook api "_matrix"
                  "Allow bridging matrix messages to discord nicely" with
          | Err _ => true
          | Ok _ => false
          end
      end
  end.

(** No webhook can be had for the channel: it is not a text channel, or
    lookup and creation are rejected. *)
Definition noWebhook (chan : Channel) : bool :=
  match chan_class chan with
  | TextChannel api => webhookDenied api
  | _ => true
  end.

(** The reply embed has descriptive text and no author: line 137 reads
    through [null]. *)
Definition replyLacksAuthor (replyEmbed : option MessageEmbed) : bool :=
  match replyEmbed with
  | Some r => truthy (description r) && negb (present (author r))
  | None => false
  end.

(** The reply embed has no descriptive text to quote. *)
Definition nothingToQuote (replyEmbed : option MessageEmbed) : Prop :=
  replyEmbed = None
  \/ exists r, replyEmbed = Some r /\ truthy (description r) = false.

(** The reply embed has descriptive text and an author whose name is the
    empty string: [addField] at line 137 refuses it. *)
Definition replyAuthorUnnamed (replyEmbed : option MessageEmbed) : bool :=
  match replyEmbed with
  | Some r =>
      truthy (description r)
      && match author r with
         | Some a => negb (nonempty (author_name a))
         | None => false
         end
  | None => false
  end.

(** The fields the embed relay adds for the reply embed: two when it has
    descriptive text, none otherwise. *)
Definition replyFields (replyEmbed : option MessageEmbed) : list EmbedField :=
  match replyEmbed with
  | Some r =>
      match description r, author r with
      | Some d, Some a =>
          if nonempty d
          then [{| field_name := "Replying to"; field_value := author_name a |};
                {| field_name := "Reply text"; field_value := d |}]
          else []
      | _, _ => []
      end
  | None => []
  end.

(** ** Observations on the guild structure walk *)

(** The channel passes the allowlist, class and membership tests of lines
    290 and 293. *)
Definition qualifies (app : App) (puppetId : Z) (guild : Guild)
  (chan : Channel) : bool :=
  bridged (getBridgedGuilds app puppetId) (getBridgedChannels app puppetId)
    guild chan
  && isTextChannel chan
  && includes (members chan) (guild_clientUserId guild).

(** The ids of the categories and of the channels handed to the callbacks,
    in call order. *)
Fixpoint catCalls (t : list WalkEvent) : list string :=
  match t with
  | [] => []
  | CatCallback cat :: rest => chan_id cat :: catCalls rest
  | ChanCallback _ :: rest => catCalls rest
  end.

Fixpoint chanCalls (t : list WalkEvent) : list string :=
  match t with
  | [] => []
  | CatCallback _ :: rest => chanCalls rest
  | ChanCallback chan :: rest => chan_id chan :: chanCalls rest
  end.

(** What the walk hands to the callbacks for one category, given its
    qualifying children: nothing when there is none, otherwise the category
    and then the children. *)
Definition announce (cat : Channel) (qualifying : list Channel)
  : list WalkEvent :=
  match qualifying with
  | [] => []
  | _ :: _ => CatCallback cat :: map ChanCallback qualifying
  end.

(** The test of lines 275 and 278 on a channel of the first loop. *)
Definition uncategorized (app : App) (puppetId : Z) (guild : Guild)
  (chan : Channel) : bool :=
  qualifies app puppetId guild chan && negb (truthy (parentID chan)).

(** The test of lines 284 and 287 on a channel of the second loop. *)
Definition visibleCategory (guild : Guild) (cat : Channel) : bool :=
  isCategoryChannel cat && includes (members cat) (guild_clientUserId guild).

(** The channel table of a guild is keyed by id, and an id is never the
    empty string. *)
Definition guildWellFormed (guild : Guild) : Prop :=
  NoDup (map chan_id (guild_channels guild))
  /\ Forall (fun c => chan_id c <> "") (guild_channels guild).

(** ** Sample inputs *)

(** A markup parser that puts a backslash before [*], [_], [`] and [~]. *)
Fixpoint escapeMarkdown (s : string) : string :=
  match s with
  | EmptyString => EmptyString
  | String c r =>
      if existsb (Ascii.eqb c) ["*"; "_"; "`"; "~"]%char
      then String "\"%char (String c (escapeMarkdown r))
      else String c (escapeMarkdown r)
  end.

Definition sampleApp : App :=
  {| parseMatrixMessage := fun _ content => escapeMarkdown (body content);
     hasPuppet := fun puppetId => (puppetId =? 1)%Z;
     getBridgedGuilds := fun _ => ["guild1"]%list;
     getBridgedChannels := fun _ => []%list;
     getRemoteUser := fun puppetId user =>
       {| remote_puppetId := puppetId;
          remote_userId := user_id user;
          remote_name := user_name user |} |}.

Definition alice : ISendingUser :=
  {| displayname := "al*ce"; avatarUrl := None;
     mxid := "@alice:example.org" |}.

Definition message1 : Message := {| message_id := "m1" |}.

(** A channel that accepts everything. *)
Definition sendAccepts : SendThing -> option MessageEmbed -> result Sent :=
  fun _ _ => Ok (OneMessage message1).

(** A channel in which the acting account may not post embeds. *)
Definition sendRejectsEmbeds
  : SendThing -> option MessageEmbed -> result Sent :=
  fun content _ =>
    match content with
    | SendEmbed _ => Err "Missing Permissions"
    | _ => Ok (OneMessage message1)
    end.

Definition botDMNoEmbeds : Channel :=
  {| chan_id := "dm1"; chan_class := DMChannel; parentID := None;
     members := []%list; clientUserBot := true; send := sendRejectsEmbeds |}.

Definition userDM : Channel :=
  {| chan_id := "dm2"; chan_class := DMChannel; parentID := None;
     members := []%list; clientUserBot := false; send := sendAccepts |}.

(** A text channel on which the webhook list cannot be read. *)
Definition deniedApi : WebhookApi :=
  {| fetchWebhooks := Err "Missing Permissions";
     createWebhook := fun _ _ => Err "Missing Permissions";
     hookSend := fun _ _ _ => Ok (ManyMessages [message1]%list) |}.

(** A text channel with a [_matrix] webhook that works. *)
Definition matrixHook : Webhook := {| hook_id := "h1"; hook_name := "_matrix" |}.

Definition workingApi : WebhookApi :=
  {| fetchWebhooks := Ok [matrixHook]%list;
     createWebhook := fun _ _ => Err "Maximum number of webhooks reached";
     hookSend := fun _ _ _ => Ok (ManyMessages [message1]%list) |}.

Definition botTextDenied : Channel :=
  {| chan_id := "text1"; chan_class := TextChannel deniedApi;
     parentID := None; members := ["bot"]%list; clientUserBot := true;
     send := sendAccepts |}.

Definition userTextDenied : Channel :=
  {| chan_id := "text1"; chan_class := TextChannel deniedApi;
     parentID := None; members := ["me"]%list; clientUserBot := false;
     send := sendAccepts |}.

Definition textWithHook : Channel :=
  {| chan_id := "text2"; chan_class := TextChannel workingApi;
     parentID := None; members := ["bot"]%list; clientUserBot := true;
     send := sendAccepts |}.

(** A reply embed with descriptive text and an author, and one without. *)
Definition replyWithAuthor : MessageEmbed :=
  {| title := None; description := Some "quoted";
     image := None;
     author := Some {| author_name := "bob"; author_iconURL := None;
                       author_url := None |};
     fields := []%list |}.

Definition replyWithoutAuthor : MessageEmbed :=
  {| title := None; description := Some "quoted"; image := None;
     author := None; fields := []%list |}.

Definition replyWithUnnamedAuthor : MessageEmbed :=
  {| title := None; description := Some "quoted"; image := None;
     author := Some {| author_name := ""; author_iconURL := None;
                       author_url := None |};
     fields := []%list |}.

Definition imageFile : IDiscordSendFile :=
  {| buffer := []%list; filename := "my_cat.png";
     url := "https://example.org/my_cat.png"; isImage := true |}.

(** A channel that, like the remote network, refuses an empty message. *)
Definition sendRejectsEmpty
  : SendThing -> option MessageEmbed -> result Sent :=
  fun content _ =>
    match content with
    | SendString "" => Err "Cannot send an empty message"
    | _ => Ok (OneMessage message1)
    end.

Definition userDMStrict : Channel :=
  {| chan_id := "dm3"; chan_class := DMChannel; parentID := None;
     members := []%list; clientUserBot := false; send := sendRejectsEmpty |}.

(** Users: one who can be written to, one who cannot. *)
Definition bob : User :=
  {| user_id := "42"; user_name := "bob"; createDM := Ok userDM |}.

Definition carol : User :=
  {| user_id := "43"; user_name := "carol";
     createDM := Err "Cannot send messages to this user" |}.

(** A client that knows nobody, and for which every fetch is rejected. *)
Definition lonelyClient : Client :=
  {| client_channels := []%list; client_guilds := []%list;
     client_friends := []%list;
     usersFetch := fun _ => Err "Unknown User" |}.

(** A client with carol in a guild and bob among its friends. *)
Definition guildWithCarol : Guild :=
  {| guild_id := "guild1"; guild_channels := []%list;
     guild_members := [{| member_user := carol |}]%list;
     guild_clientUserId := "me" |}.

Definition clientWithFriends : Client :=
  {| client_channels := []%list; client_guilds := [guildWithCarol]%list;
     client_friends := [bob]%list;
     usersFetch := fun _ => Err "Unknown User" |}.

(** Activities. *)
Definition playingChess : Activity :=
  {| activity_type := "PLAYING"; activity_name := "Chess";
     activity_emoji := None; activity_state := None |}.

Definition listeningToRadio : Activity :=
  {| activity_type := "LISTENING"; activity_name := "Radio";
     activity_emoji := None; activity_state := None |}.

Definition blankCustomStatus : Activity :=
  {| activity_type := "CUSTOM_STATUS"; activity_name := "Custom Status";
     activity_emoji := None; activity_state := None |}.

Definition presenceOf (acts : list Activity) : Presence :=
  {| status := Idle; activities := acts; presence_user := Some bob |}.

(** Guild channels: a text channel under a category, and a category. *)
Definition textUnder (id parent : string) : Channel :=
  {| chan_id := id; chan_class := TextChannel workingApi;
     parentID := Some parent; members := ["me"]%list;
     clientUserBot := false; send := sendAccepts |}.

Definition categoryOf (id : string) (seenBy : list string) : Channel :=
  {| chan_id := id; chan_class := CategoryChannel; parentID := None;
     members := seenBy; clientUserBot := false; send := sendAccepts |}.

Definition lobby : Channel :=
  {| chan_id := "lobby"; chan_class := TextChannel workingApi;
     parentID := None; members := ["me"]%list;
     clientUserBot := false; send := sendAccepts |}.

(** A guild whose one category the acting account does not see, although it
    sees the text channel under it. *)
Definition guildHiddenCategory : Guild :=
  {| guild_id := "guild1";
     guild_channels := [categoryOf "cat1" []; textUnder "chan1" "cat1"]%list;
     guild_members := []%list;
     guild_clientUserId := "me" |}.

(** A guild with a channel outside categories, a category with two text
    channels, and a category with none. *)
Definition guildTwoCategories : Guild :=
  {| guild_id := "guild1";
     guild_channels :=
       [lobby; categoryOf "cat1" ["me"]; textUnder "chan1" "cat1";
        textUnder "chan2" "cat1"; categoryOf "cat2" ["me"]]%list;
     guild_members := []%list;
     guild_clientUserId := "me" |}.

(** A client whose guild member and friend share the id 43, and whose
    channel cache holds the lobby. *)
Definition carolTheFriend : User :=
  {| user_id := "43"; user_name := "carol (friend)"; createDM := Ok userDM |}.

Definition clientKnowingCarolTwice : Client :=
  {| client_channels := [lobby]%list; client_guilds := [guildWithCarol]%list;
     client_friends := [carolTheFriend]%list;
     usersFetch := fun _ => Err "Unknown User" |}.

Definition gamingStatus : Activity :=
  {| activity_type := "CUSTOM_STATUS"; activity_name := "Custom Status";
     activity_emoji := Some {| emoji_name := ":video_game:" |};
     activity_state := Some "Playing" |}.

(* ------------------------------------------------------------------ *)
(** ** The parser callbacks and the emoji lookup                       *)
(* ------------------------------------------------------------------ *)

(** [Discord.GuildEmoji], and the emoji row of the bridge store. *)
Record GuildEmoji : Type := { emoji_id : string; emoji_label : string }.

Record DbEmoji : Type := { emojiId : string; emojiMxc : string }.

(** Further collaborators reached through [this.app], none of them in this
    file: [app.puppets[puppetId]] with its [client],
    [app.puppet.getMxidForUser], [app.puppet.getMxidForRoom] and
    [app.store.getEmojiByMxc]. *)
Record Bridge : Type := {
  puppetClient : Z -> option Client;
  getMxidForUser : Z -> string -> string;
  getMxidForRoom : Z -> string -> string;
  getEmojiByMxc : string -> option DbEmoji
}.

(** What a parser callback answers: [{ mxid, name }]. *)
Record Mention : Type := { mention_mxid : string; mention_name : string }.

(** The operations of a parser callback: the two id lookups of the bridge,
    and whatever the resolvers do. *)
Inductive CallbackEvent : Type :=
| CallGetMxidForUser (puppetId : Z) (userId : string)
| CallGetMxidForRoom (puppetId : Z) (roomId : string)
| Resolving (ev : ResolveEvent).

(** A computation run inside another one, its operations relabelled. *)
Definition liftAsync {E F A : Type} (f : E -> F) (m : Async E A)
  : Async F A :=
  (map f (fst m), snd m).

(** [chan instanceof Discord.DMChannel]. *)
Definition isDMChannel (c : Channel) : bool :=
  match chan_class c with DMChannel => true | _ => false end.

(** [s || ""] for [s : string | null]. *)
Definition orEmpty (o : option string) : string :=
  match o with
  | Some s => s
  | None => ""
  end.

Section ParserCallbacks.

Variable bridge : Bridge.

(** [chan.name] of the client library: the name of a text channel, the
    name of a group DM or [null]. *)
Variable channelName : Channel -> option string.

(** getDiscordMsgParserCallbacks, lines 218-253: the [getUser] callback of
    the bundle for [puppetId].  [p.client] is read after the id lookup, and
    reads through [undefined] when there is no such puppet. *)
Definition getUserCallback (puppetId : Z) (id : string)
  : Async CallbackEvent Mention :=
  emit (CallGetMxidForUser puppetId id) ;;
  let mxid := getMxidForUser bridge puppetId id in
  match puppetClient bridge puppetId with
  | None => throw TypeError
  | Some client =>
      user <- liftAsync Resolving (getUserById client id) ;;
      match user with
      | Some user =>
          ret {| mention_mxid := mxid; mention_name := user_name user |}
      | None => ret {| mention_mxid := mxid; mention_name := mxid |}
      end
  end.

(** The [getChannel] callback of the bundle, lines 236-250. *)
Definition getChannelCallback (puppetId : Z) (id : string)
  : Async CallbackEvent Mention :=
  emit (CallGetMxidForRoom puppetId id) ;;
  let mxid := getMxidForRoom bridge puppetId id in
  match puppetClient bridge puppetId with
  | None => throw TypeError
  | Some client =>
      chan <- liftAsync Resolving (getDiscordChan client id) ;;
      match chan with
      | Some chan =>
          if negb (isDMChannel chan)
          then ret {| mention_mxid := mxid;
                      mention_name := orEmpty (channelName chan) |}
          else ret {| mention_mxid := mxid; mention_name := mxid |}
      | None => ret {| mention_mxid := mxid; mention_name := mxid |}
      end
  end.

(** getDiscordEmoji, lines 255-262; [emojis] is [client.emojis], the only
    part of the client the method reads. *)
Definition getDiscordEmoji (emojis : list GuildEmoji) (mxc : string)
  : option GuildEmoji :=
  match getEmojiByMxc bridge mxc with
  | None => None
  | Some dbEmoji =>
      find (fun e => (emoji_id e =? emojiId dbEmoji)%string) emojis
  end.

End ParserCallbacks.

(** ** Further observations *)

Definition isCreateWebhook (ev : DeliveryEvent) : bool :=
  match ev with
  | CallCreateWebhook _ _ => true
  | _ => false
  end.

(** The webhook named [_matrix] that heads the fetched list, if any. *)
Definition firstMatrixHook (hooks : list Webhook) : option Webhook :=
  find (fun h => (hook_name h =? "_matrix")%string) hooks.

(** The channels handed to the channel callback, in call order. *)
Fixpoint chanCallbacks (t : list WalkEvent) : list Channel :=
  match t with
  | [] => []
  | CatCallback _ :: rest => chanCallbacks rest
  | ChanCallback chan :: rest => chan :: chanCallbacks rest
  end.

(** The channel is not under a category: [!chan.parentID]. *)
Definition noParent (chan : Channel) : bool := negb (truthy (parentID chan)).

(** The guild has a category the acting account is a member of whose id is
    the [parentID] of the channel. *)
Definition underVisibleCategory (guild : Guild) (chan : Channel) : Prop :=
  exists cat,
    In cat (guild_channels guild)
    /\ visibleCategory guild cat = true
    /\ parentID chan = Some (chan_id cat).

(** ** Further sample inputs *)

Definition sampleBridge : Bridge :=
  {| puppetClient := fun puppetId =>
       if (puppetId =? 1)%Z then Some clientKnowingCarolTwice
       else if (puppetId =? 2)%Z then Some clientWithFriends
       else None;
     getMxidForUser := fun _ userId => "@_discord_" ++ userId ++ ":example.org";
     getMxidForRoom := fun _ roomId => "#_discord_" ++ roomId ++ ":example.org";
     getEmojiByMxc := fun mxc =>
       if (mxc =? "mxc://example.org/blob")%string
       then Some {| emojiId := "e1"; emojiMxc := mxc |}
       else None |}.

Definition sampleChannelName (c : Channel) : option string :=
  if (chan_id c =? "lobby")%string then Some "lobby-talk" else None.

Definition blobEmoji : GuildEmoji :=
  {| emoji_id := "e1"; emoji_label := "blob" |}.




Definition catPicture : MessageEmbed :=
  {| title := Some "my_cat.png"; description := Some "look at this";
     image := Some {| image_url := "https://example.org/my_cat.png" |};
     author := None; fields := []%list |}.

Definition catPictureBare : MessageEmbed :=
  {| title := Some "my_cat.png"; description := None;
     image := Some {| image_url := "https://example.org/my_cat.png" |};
     author := None; fields := []%list |}.

(** A client whose cache holds a DM channel under its plain id, and whose
    guild holds a voice channel. *)
Definition voiceRoom : Channel :=
  {| chan_id := "voice1"; chan_class := VoiceChannel; parentID := None;
     members := ["me"]%list; clientUserBot := false; send := sendAccepts |}.

Definition guildWithLobby : Guild :=
  {| guild_id := "guild1"; guild_channels := [voiceRoom; lobby]%list;
     guild_members := []%list; guild_clientUserId := "me" |}.

Definition clientWithCachedDM : Client :=
  {| client_channels := [userDM]%list; client_guilds := [guildWithLobby]%list;
     client_friends := []%list;
     usersFetch := fun _ => Err "Unknown User" |}.

(** A bridge store that lists nothing for puppet 1. *)
Definition unbridgedApp : App :=
  {| parseMatrixMessage := parseMatrixMessage sampleApp;
     hasPuppet := hasPuppet sampleApp;
     getBridgedGuilds := fun _ => []%list;
     getBridgedChannels := fun _ => []%list;
     getRemoteUser := getRemoteUser sampleApp |}.

(* ================================================================== *)
(** * Part II.  Properties                                             *)
(* ================================================================== *)

Unset Implicit Arguments.

(** ** Laws of the [Async] monad *)

Section AsyncLaws.

Variable E : Type.

Lemma bind_ok (A B : Type) (t : list E) (a : A) (k : A -> Async E B) :
  bind (t, Ok a) k = ((t ++ trace (k a))%list, outcome (k a)).
Proof. unfold bind, trace, outcome. destruct (k a); reflexivity. Qed.

Lemma bind_err (A B : Type) (t : list E) (e : Error) (k : A -> Async E B) :
  bind (t, Err e) k = (t, Err e).
Proof. reflexivity. Qed.

Lemma bind_emit (B : Type) (ev : E) (k : unit -> Async E B) :
  bind (emit ev) k = (ev :: trace (k tt), outcome (k tt)).
Proof. unfold emit. rewrite bind_ok. reflexivity. Qed.

Lemma bind_ret (A B : Type) (a : A) (k : A -> Async E B) :
  bind (ret a) k = k a.
Proof. unfold ret. rewrite bind_ok. destruct (k a); reflexivity. Qed.

Lemma run_eta (A : Type) (m : Async E A) : m = (trace m, outcome m).
Proof. destruct m; reflexivity. Qed.

End AsyncLaws.

(** ** The delivery mechanisms, one by one *)

Lemma sendsOf_app (t1 t2 : list DeliveryEvent) :
  sendsOf (t1 ++ t2) = (sendsOf t1 ++ sendsOf t2)%list.
Proof. apply filter_app. Qed.

Lemma warningsOf_app (t1 t2 : list DeliveryEvent) :
  warningsOf (t1 ++ t2) = (warningsOf t1 ++ warningsOf t2)%list.
Proof. apply filter_app. Qed.

(** Lookup and creation, case by case: the rejection of either is caught
    and logged, and the outcome is never an error. *)
Lemma obtainHook_cases (api : WebhookApi) :
  obtainHook api =
  match fetchWebhooks api with
  | Err e =>
      ([CallFetchWebhooks; LogWarn "Missing webhook permissions" e], Ok None)
  | Ok hooks =>
      match find (fun h => (hook_name h =? "_matrix")%string) hooks with
      | Some h => ([CallFetchWebhooks], Ok (Some h))
      | None =>
          let reason := "Allow bridging matrix messages to discord nicely" in
          match createWebhook api "_matrix" reason with
          | Ok h =>
              ([CallFetchWebhooks; CallCreateWebhook "_matrix" reason],
               Ok (Some h))
          | Err e =>
              ([CallFetchWebhooks; CallCreateWebhook "_matrix" reason;
                LogWarn ("Unable to create " ++ dquote ++ "_matrix" ++ dquote
                         ++ " webhook") e],
               Ok None)
          end
      end
  end.
Proof.
  unfold obtainHook.
  destruct (fetchWebhooks api) as [hooks|e]; cbn; [|reflexivity].
  destruct (find _ hooks) as [h|]; cbn; [reflexivity|].
  destruct (createWebhook api _ _); reflexivity.
Qed.

Lemma obtainHook_denied (api : WebhookApi) :
  webhookDenied api = true ->
  exists t, obtainHook api = (t, Ok None)
            /\ sendsOf t = [] /\ length (warningsOf t) = 1.
Proof.
  unfold webhookDenied. rewrite obtainHook_cases.
  destruct (fetchWebhooks api) as [hooks|e].
  - destruct (find _ hooks) as [h|]; [discriminate|].
    cbv zeta. destruct (createWebhook api _ _) as [h|e]; [discriminate|].
    intros _. eexists. split; [reflexivity|]. split; reflexivity.
  - intros _. eexists. split; [reflexivity|]. split; reflexivity.
Qed.

Lemma obtainHook_granted (api : WebhookApi) :
  webhookDenied api = false ->
  exists t h, obtainHook api = (t, Ok (Some h))
              /\ sendsOf t = [] /\ warningsOf t = [].
Proof.
  unfold webhookDenied. rewrite obtainHook_cases.
  destruct (fetchWebhooks api) as [hooks|e]; [|discriminate].
  destruct (find _ hooks) as [h|].
  - intros _. do 2 eexists. split; [reflexivity|]. split; reflexivity.
  - cbv zeta. destruct (createWebhook api _ _) as [h|e]; [|discriminate].
    intros _. do 2 eexists. split; [reflexivity|]. split; reflexivity.
Qed.

Lemma directSend_run (chan : Channel) (sendThing : SendThing)
  (replyEmbed : option MessageEmbed) :
  exists extra,
    directSend chan sendThing replyEmbed
    = ([LogDebug "Not in relay mode, just sending as user";
        CallChanSend sendThing extra],
       send chan sendThing extra).
Proof.
  unfold directSend, logDebug, chanSend, await. rewrite bind_emit.
  destruct (present replyEmbed && clientUserBot chan);
    eexists; reflexivity.
Qed.

Lemma webhookSend_run (api : WebhookApi) (hook : Webhook)
  (sendThing : SendThing) (asUser : ISendingUser)
  (replyEmbed : option MessageEmbed) :
  exists content opts,
    webhookSend api hook sendThing asUser replyEmbed
    = ([CallHookSend hook content opts], hookSend api hook content opts)
    /\ username opts = displayname asUser
    /\ (forall a, sendThing = SendAttachment a -> files opts = [a]).
Proof.
  unfold webhookSend, await.
  destruct sendThing as [s|e|a]; do 2 eexists;
    (split; [reflexivity|split; [reflexivity|]]);
    intros a' H; try discriminate.
  injection H as <-. reflexivity.
Qed.

Lemma embedOfPayload_fields (app : App) (msg : Payload) :
  fields (embedOfPayload app msg) = [].
Proof.
  destruct msg as [s|m|f]; cbn; [reflexivity| |].
  - destruct (image m); reflexivity.
  - destruct (isImage f); reflexivity.
Qed.

(** The embed relay when the reply embed, if it has descriptive text, has
    an author with a name: the embed built from the payload, with the reply
    fields and the author of the sending identity, is sent. *)
Lemma embedRelay_run (app : App) (chan : Channel) (msg : Payload)
  (asUser : ISendingUser) (replyEmbed : option MessageEmbed) :
  replyLacksAuthor replyEmbed = false ->
  replyAuthorUnnamed replyEmbed = false ->
  exists embed,
    embedRelay app chan msg asUser replyEmbed
    = ([LogDebug "Trying to send as embed...";
        CallChanSend (SendEmbed embed) None],
       send chan (SendEmbed embed) None)
    /\ author embed
       = Some {| author_name := displayname asUser;
                 author_iconURL := orUndefined (avatarUrl asUser);
                 author_url := Some ("https://matrix.to/#/" ++ mxid asUser) |}
    /\ title embed = title (embedOfPayload app msg)
    /\ description embed = description (embedOfPayload app msg)
    /\ image embed = image (embedOfPayload app msg)
    /\ fields embed = replyFields replyEmbed.
Proof.
  unfold replyLacksAuthor, replyAuthorUnnamed, replyFields, embedRelay,
    addReplyFields, logDebug, chanSend, await, truthy.
  intros Hnull Hname. rewrite bind_emit.
  pose proof (embedOfPayload_fields app msg) as Hnone.
  destruct replyEmbed as [r|].
  - destruct (description r) as [d|].
    + destruct (nonempty d) eqn:Hd.
      * destruct (author r) as [a|]; [|discriminate].
        cbn in Hname. apply negb_false_iff in Hname.
        unfold addField, fromResult. cbn [nonempty negb String.eqb].
        rewrite Hname, Hd. cbn [negb]. rewrite !bind_ok. cbn.
        eexists. repeat split. cbn. rewrite Hnone. reflexivity.
      * rewrite bind_ret. eexists. repeat split.
        cbn. rewrite Hnone. destruct (author r); reflexivity.
    + rewrite bind_ret. eexists. repeat split. cbn. exact Hnone.
  - rewrite bind_ret. eexists. repeat split. cbn. exact Hnone.
Qed.

Lemma embedRelay_throws (app : App) (chan : Channel) (msg : Payload)
  (asUser : ISendingUser) (replyEmbed : option MessageEmbed) :
  replyLacksAuthor replyEmbed = true ->
  embedRelay app chan msg asUser replyEmbed
  = ([LogDebug "Trying to send as embed..."], Err TypeError).
Proof.
  unfold replyLacksAuthor, embedRelay, addReplyFields, logDebug, truthy.
  intros H. rewrite bind_emit.
  destruct replyEmbed as [r|]; [|discriminate].
  destruct (description r) as [d|]; [|discriminate].
  destruct (nonempty d); [|discriminate].
  destruct (author r) as [a|]; [discriminate|].
  reflexivity.
Qed.

(** The embed relay when the reply embed has descriptive text and an author
    with an empty name: the library refuses the field and nothing is sent. *)
Lemma embedRelay_refused (app : App) (chan : Channel) (msg : Payload)
  (asUser : ISendingUser) (replyEmbed : option MessageEmbed) :
  replyAuthorUnnamed replyEmbed = true ->
  embedRelay app chan msg asUser replyEmbed
  = ([LogDebug "Trying to send as embed..."], Err EmbedFieldValueError).
Proof.
  unfold replyAuthorUnnamed, embedRelay, addReplyFields, logDebug, truthy.
  intros H. rewrite bind_emit.
  destruct replyEmbed as [r|]; [|discriminate].
  destruct (description r) as [d|]; [|discriminate].
  destruct (nonempty d); [|discriminate].
  destruct (author r) as [a|]; [|discriminate].
  cbn in H. apply negb_true_iff in H.
  unfold addField, fromResult. cbn [nonempty negb String.eqb].
  rewrite H. reflexivity.
Qed.

(** Either way the embed relay logs one line and sends one embed, or logs
    one line and throws. *)
Lemma embedRelay_shape (app : App) (chan : Channel) (msg : Payload)
  (asUser : ISendingUser) (replyEmbed : option MessageEmbed) :
  (exists e,
     embedRelay app chan msg asUser replyEmbed
     = ([LogDebug "Trying to send as embed..."], Err e))
  \/ (exists embed,
        embedRelay app chan msg asUser replyEmbed
        = ([LogDebug "Trying to send as embed...";
            CallChanSend (SendEmbed embed) None],
           send chan (SendEmbed embed) None)).
Proof.
  destruct (replyLacksAuthor replyEmbed) eqn:Hnull.
  { left. eexists. apply embedRelay_throws. exact Hnull. }
  destruct (replyAuthorUnnamed replyEmbed) eqn:Hname.
  { left. eexists. apply embedRelay_refused. exact Hname. }
  right. destruct (embedRelay_run app chan msg asUser _ Hnull Hname)
    as (embed & Hrun & _).
  exists embed. exact Hrun.
Qed.

Lemma plainRelay_run (app : App) (chan : Channel) (msg : Payload)
  (asUser : ISendingUser) (replyEmbed : option MessageEmbed) :
  plainRelay app chan msg asUser replyEmbed
  = ([LogDebug "Prepending sender information to send the message out...";
      CallChanSend
        (SendString (prefixedText app msg asUser ++ replySuffix replyEmbed))
        None],
     send chan
       (SendString (prefixedText app msg asUser ++ replySuffix replyEmbed))
       None).
Proof. reflexivity. Qed.

(** A relayed send is some log lines and webhook lookups, then one
    mechanism: the webhook when one is found or created, otherwise the embed
    for a bot account and the prefixed text for any other. *)
Lemma sendToDiscord_relay (app : App) (chan : Channel) (msg : Payload)
  (asUser : ISendingUser) (replyEmbed : option MessageEmbed) :
  exists logs,
    sendsOf logs = []
    /\ ((exists api hook,
           chan_class chan = TextChannel api
           /\ webhookDenied api = false
           /\ warningsOf logs = []
           /\ sendToDiscord app chan msg (Some asUser) replyEmbed
              = ((logs ++ trace (webhookSend api hook (toSendThing msg)
                                   asUser replyEmbed))%list,
                 outcome (webhookSend api hook (toSendThing msg)
                            asUser replyEmbed)))
        \/ (noWebhook chan = true
            /\ length (warningsOf logs)
               = (if isTextChannel chan then 1 else 0)
            /\ sendToDiscord app chan msg (Some asUser) replyEmbed
               = ((logs ++ trace (if clientUserBot chan
                                  then embedRelay app chan msg asUser replyEmbed
                                  else plainRelay app chan msg asUser replyEmbed))%list,
                  outcome (if clientUserBot chan
                           then embedRelay app chan msg asUser replyEmbed
                           else plainRelay app chan msg asUser replyEmbed)))).
Proof.
  unfold sendToDiscord.
  remember (if clientUserBot chan
            then embedRelay app chan msg asUser replyEmbed
            else plainRelay app chan msg asUser replyEmbed) as last.
  destruct last as [tlast rlast]. clear Heqlast.
  unfold webhookRelay, noWebhook, isTextChannel, logDebug.
  destruct (chan_class chan) as [api| | | |] eqn:Hclass.
  - destruct (webhookDenied api) eqn:Hd.
    + destruct (obtainHook_denied _ Hd) as (t & Ht & Hs & Hw).
      rewrite Ht. cbn.
      exists (LogDebug "Sending something to discord..."
              :: LogDebug "Trying to send as webhook..."
              :: t ++ [LogDebug "Couldn't send as webhook"])%list.
      split.
      * cbn. rewrite sendsOf_app, Hs. reflexivity.
      * right. split; [reflexivity|]. split.
        -- cbn. rewrite warningsOf_app, length_app, Hw. reflexivity.
        -- cbn. reflexivity.
    + destruct (obtainHook_granted _ Hd) as (t & h & Ht & Hs & Hw).
      destruct (webhookSend_run api h (toSendThing msg) asUser replyEmbed)
        as (content & opts & Hrun & _).
      rewrite Ht. cbn -[webhookSend]. rewrite Hrun. cbn.
      exists (LogDebug "Sending something to discord..."
              :: LogDebug "Trying to send as webhook..." :: t)%list.
      split; [exact Hs|].
      left. exists api, h. repeat split; [exact Hd|exact Hw|].
      rewrite Hrun.
      destruct (hookSend api h content opts); cbn;
        rewrite ?app_nil_r; reflexivity.
  - exists [LogDebug "Sending something to discord..."].
    split; [reflexivity|]. right. repeat split.
  - exists [LogDebug "Sending something to discord..."].
    split; [reflexivity|]. right. repeat split.
  - exists [LogDebug "Sending something to discord..."].
    split; [reflexivity|]. right. repeat split.
  - exists [LogDebug "Sending something to discord..."].
    split; [reflexivity|]. right. repeat split.
Qed.

(** With a webhook in hand the relayed send is the log lines, the lookup,
    and the one send through that webhook. *)
Lemma sendToDiscord_with_hook (app : App) (chan : Channel) (api : WebhookApi)
  (t : list DeliveryEvent) (hook : Webhook) (msg : Payload)
  (asUser : ISendingUser) (replyEmbed : option MessageEmbed) :
  chan_class chan = TextChannel api ->
  obtainHook api = (t, Ok (Some hook)) ->
  sendToDiscord app chan msg (Some asUser) replyEmbed
  = ((LogDebug "Sending something to discord..."
      :: LogDebug "Trying to send as webhook..."
      :: t ++ trace (webhookSend api hook (toSendThing msg) asUser
                       replyEmbed))%list,
     outcome (webhookSend api hook (toSendThing msg) asUser replyEmbed)).
Proof.
  intros Hclass Hhook.
  destruct (webhookSend_run api hook (toSendThing msg) asUser replyEmbed)
    as (content & opts & Hrun & _).
  unfold sendToDiscord, webhookRelay, logDebug.
  rewrite Hclass, Hhook. cbn -[webhookSend]. rewrite Hrun. cbn.
  destruct (hookSend api hook content opts); cbn; rewrite ?app_nil_r;
    reflexivity.
Qed.

Lemma append_assoc (a b c : string) : (a ++ b) ++ c = a ++ (b ++ c).
Proof. induction a as [|x a IH]; cbn; [reflexivity|now rewrite IH]. Qed.

Lemma append_nil_r (a : string) : a ++ "" = a.
Proof. induction a as [|x a IH]; cbn; [reflexivity|now rewrite IH]. Qed.

Lemma nonempty_true (s : string) : nonempty s = true <-> s <> "".
Proof.
  unfold nonempty. rewrite negb_true_iff. apply String.eqb_neq.
Qed.

Lemma sendsOf_nil_Forall (t : list DeliveryEvent) :
  sendsOf t = [] -> Forall (fun ev => isSend ev = false) t.
Proof.
  induction t as [|ev t IH]; cbn; intros H; [constructor|].
  destruct (isSend ev) eqn:Hev; [discriminate|].
  constructor; auto.
Qed.

(** ** C1: which mechanism sends, and where a delivery error comes from *)

(** C1 (amended).  A delivery commits to one mechanism, the first in
    priority order that is available, and performs its one send: without a
    sending identity the channel's send of the payload as it is; otherwise
    the send through the webhook when lookup or creation yields one;
    otherwise, for a bot account, the channel's send of an embed whose author
    is the sending identity; otherwise the channel's send of the prefixed
    text.  The outcome is the remote network's answer to that one send, so
    there is no fall back after a rejected send.  The only error that is not
    such an answer arises in the embed relay, when the reply embed has
    descriptive text and an author with an empty name: the client library
    refuses the field and nothing is sent.  A rejected webhook lookup or
    creation is never the outcome: when every send is accepted the delivery
    succeeds whatever lookup and creation answer.  A reply embed with
    descriptive text is taken to carry its author, as line 137 asserts. *)
Theorem sendToDiscord_commits_to_one_mechanism
  (app : App) (chan : Channel) (msg : Payload)
  (asUser : option ISendingUser) (replyEmbed : option MessageEmbed) :
  (asUser = None ->
   sendsOf (trace (sendToDiscord app chan msg asUser replyEmbed))
   = [CallChanSend (toSendThing msg)
        (if present replyEmbed && clientUserBot chan
         then replyEmbed else None)]
   /\ outcome (sendToDiscord app chan msg asUser replyEmbed)
      = send chan (toSendThing msg)
          (if present replyEmbed && clientUserBot chan
           then replyEmbed else None))
  /\ (forall u api,
        asUser = Some u ->
        chan_class chan = TextChannel api ->
        webhookDenied api = false ->
        exists hook content opts,
          outcome (obtainHook api) = Ok (Some hook)
          /\ sendsOf (trace (sendToDiscord app chan msg asUser replyEmbed))
             = [CallHookSend hook content opts]
          /\ username opts = displayname u
          /\ outcome (sendToDiscord app chan msg asUser replyEmbed)
             = hookSend api hook content opts)
  /\ (forall u,
        asUser = Some u ->
        noWebhook chan = true ->
        clientUserBot chan = true ->
        replyLacksAuthor replyEmbed = false ->
        replyAuthorUnnamed replyEmbed = false ->
        exists embed,
          sendsOf (trace (sendToDiscord app chan msg asUser replyEmbed))
          = [CallChanSend (SendEmbed embed) None]
          /\ option_map author_name (author embed) = Some (displayname u)
          /\ outcome (sendToDiscord app chan msg asUser replyEmbed)
             = send chan (SendEmbed embed) None)
  /\ (forall u,
        asUser = Some u ->
        noWebhook chan = true ->
        clientUserBot chan = true ->
        replyAuthorUnnamed replyEmbed = true ->
        sendsOf (trace (sendToDiscord app chan msg asUser replyEmbed)) = []
        /\ outcome (sendToDiscord app chan msg asUser replyEmbed)
           = Err EmbedFieldValueError)
  /\ (forall u,
        asUser = Some u ->
        noWebhook chan = true ->
        clientUserBot chan = false ->
        sendsOf (trace (sendToDiscord app chan msg asUser replyEmbed))
        = [CallChanSend
             (SendString (prefixedText app msg u ++ replySuffix replyEmbed))
             None]
        /\ outcome (sendToDiscord app chan msg asUser replyEmbed)
           = send chan
               (SendString (prefixedText app msg u ++ replySuffix replyEmbed))
               None)
  /\ ((forall content extra, exists sent, send chan content extra = Ok sent) ->
      (forall api hook content opts,
         chan_class chan = TextChannel api ->
         exists sent, hookSend api hook content opts = Ok sent) ->
      replyLacksAuthor replyEmbed = false ->
      replyAuthorUnnamed replyEmbed = false ->
      exists sent,
        outcome (sendToDiscord app chan msg asUser replyEmbed) = Ok sent).
Proof.
  assert (Hdirect :
    asUser = None ->
    sendsOf (trace (sendToDiscord app chan msg asUser replyEmbed))
    = [CallChanSend (toSendThing msg)
         (if present replyEmbed && clientUserBot chan
          then replyEmbed else None)]
    /\ outcome (sendToDiscord app chan msg asUser replyEmbed)
       = send chan (toSendThing msg)
           (if present replyEmbed && clientUserBot chan
            then replyEmbed else None)).
  { intros ->. unfold sendToDiscord, directSend, logDebug, chanSend, await.
    rewrite !bind_emit.
    destruct (present replyEmbed && clientUserBot chan); split; reflexivity. }
  assert (Hhook :
    forall u api,
      asUser = Some u ->
      chan_class chan = TextChannel api ->
      webhookDenied api = false ->
      exists hook content opts,
        outcome (obtainHook api) = Ok (Some hook)
        /\ sendsOf (trace (sendToDiscord app chan msg asUser replyEmbed))
           = [CallHookSend hook content opts]
        /\ username opts = displayname u
        /\ outcome (sendToDiscord app chan msg asUser replyEmbed)
           = hookSend api hook content opts).
  { intros u api -> Hclass Hgranted.
    destruct (obtainHook_granted api Hgranted) as (t & h & Ht & Hs & _).
    destruct (webhookSend_run api h (toSendThing msg) u replyEmbed)
      as (content & opts & Hsend & Hname & _).
    exists h, content, opts.
    rewrite (sendToDiscord_with_hook app chan api t h msg u replyEmbed
               Hclass Ht), Ht, Hsend.
    cbn [trace outcome fst snd]. cbn [sendsOf filter isSend].
    fold (sendsOf (t ++ [CallHookSend h content opts])).
    rewrite sendsOf_app, Hs. repeat split. exact Hname. }
  assert (Hlast :
    forall u,
      asUser = Some u ->
      noWebhook chan = true ->
      exists logs,
        sendsOf logs = []
        /\ sendToDiscord app chan msg asUser replyEmbed
           = ((logs ++ trace (if clientUserBot chan
                              then embedRelay app chan msg u replyEmbed
                              else plainRelay app chan msg u replyEmbed))%list,
              outcome (if clientUserBot chan
                       then embedRelay app chan msg u replyEmbed
                       else plainRelay app chan msg u replyEmbed))).
  { intros u -> Hno.
    destruct (sendToDiscord_relay app chan msg u replyEmbed)
      as (logs & Hlogs & [(api & h & Hc & Hd & _)|(_ & _ & Hrun)]).
    - unfold noWebhook in Hno. rewrite Hc in Hno. congruence.
    - exists logs. split; [exact Hlogs|exact Hrun]. }
  assert (Hembed :
    forall u,
      asUser = Some u ->
      noWebhook chan = true ->
      clientUserBot chan = true ->
      replyLacksAuthor replyEmbed = false ->
      replyAuthorUnnamed replyEmbed = false ->
      exists embed,
        sendsOf (trace (sendToDiscord app chan msg asUser replyEmbed))
        = [CallChanSend (SendEmbed embed) None]
        /\ option_map author_name (author embed) = Some (displayname u)
        /\ outcome (sendToDiscord app chan msg asUser replyEmbed)
           = send chan (SendEmbed embed) None).
  { intros u Hu Hno Hbot Hnull Hname.
    destruct (Hlast u Hu Hno) as (logs & Hlogs & Hrun).
    destruct (embedRelay_run app chan msg u _ Hnull Hname)
      as (embed & Hsend & Hauthor & _).
    exists embed. rewrite Hrun, Hbot, Hsend. cbn [trace outcome fst snd].
    rewrite sendsOf_app, Hlogs, Hauthor. repeat split. }
  assert (Hplain :
    forall u,
      asUser = Some u ->
      noWebhook chan = true ->
      clientUserBot chan = false ->
      sendsOf (trace (sendToDiscord app chan msg asUser replyEmbed))
      = [CallChanSend
           (SendString (prefixedText app msg u ++ replySuffix replyEmbed))
           None]
      /\ outcome (sendToDiscord app chan msg asUser replyEmbed)
         = send chan
             (SendString (prefixedText app msg u ++ replySuffix replyEmbed))
             None).
  { intros u Hu Hno Hbot.
    destruct (Hlast u Hu Hno) as (logs & Hlogs & Hrun).
    rewrite Hrun, Hbot, plainRelay_run. cbn [trace outcome fst snd].
    rewrite sendsOf_app, Hlogs. split; reflexivity. }
  split; [exact Hdirect|]. split; [exact Hhook|]. split; [exact Hembed|].
  split; [|split; [exact Hplain|]].
  - intros u Hu Hno Hbot Hname.
    destruct (Hlast u Hu Hno) as (logs & Hlogs & Hrun).
    rewrite Hrun, Hbot, (embedRelay_refused _ _ _ _ _ Hname).
    cbn [trace outcome fst snd]. rewrite sendsOf_app, Hlogs.
    split; reflexivity.
  - intros Hsend Hhooks Hnull Hname.
    destruct asUser as [u|].
    + destruct (noWebhook chan) eqn:Hno.
      * destruct (clientUserBot chan) eqn:Hbot.
        -- destruct (Hembed u eq_refl eq_refl eq_refl Hnull Hname)
             as (embed & _ & _ & Hout).
           rewrite Hout. apply Hsend.
        -- destruct (Hplain u eq_refl eq_refl eq_refl) as [_ Hout].
           rewrite Hout. apply Hsend.
      * unfold noWebhook in Hno.
        destruct (chan_class chan) as [api| | | |] eqn:Hclass;
          try discriminate.
        destruct (Hhook u api eq_refl eq_refl Hno)
          as (hook & content & opts & _ & _ & _ & Hout).
        rewrite Hout. apply (Hhooks api hook content opts eq_refl).
    + destruct (Hdirect eq_refl) as [_ Hout]. rewrite Hout. apply Hsend.
Qed.

(** The account may not post embeds in this channel: the embed send is
    rejected and the delivery fails, although the prefixed text, the last
    resort, would have gone out and is never tried. *)
Lemma sendToDiscord_fails_before_the_last_resort :
  trace (sendToDiscord sampleApp botDMNoEmbeds (PlainText "hi") (Some alice)
           None)
  = [LogDebug "Sending something to discord...";
     LogDebug "Trying to send as embed...";
     CallChanSend
       (SendEmbed
          (setAuthor "al*ce" None "https://matrix.to/#/@alice:example.org"
             (setDescription "hi" newEmbed)))
       None]
  /\ outcome (sendToDiscord sampleApp botDMNoEmbeds (PlainText "hi")
                (Some alice) None)
     = Err "Missing Permissions"
  /\ outcome (plainRelay sampleApp botDMNoEmbeds (PlainText "hi") alice None)
     = Ok (OneMessage message1).
Proof. repeat split. Qed.

Lemma sendToDiscord_commits_to_one_mechanism_witness :
  (exists hook content opts,
     sendsOf (trace (sendToDiscord sampleApp textWithHook (PlainText "hi")
                       (Some alice) None))
     = [CallHookSend hook content opts])
  /\ (exists embed,
        sendsOf (trace (sendToDiscord sampleApp botTextDenied (PlainText "hi")
                          (Some alice) (Some replyWithAuthor)))
        = [CallChanSend (SendEmbed embed) None])
  /\ outcome (sendToDiscord sampleApp botTextDenied (PlainText "hi")
                (Some alice) (Some replyWithUnnamedAuthor))
     = Err EmbedFieldValueError
  /\ sendsOf (trace (sendToDiscord sampleApp userTextDenied (PlainText "hi")
                       (Some alice) None))
     = [CallChanSend (SendString "**al\*ce**: hi") None]
  /\ exists sent,
       outcome (sendToDiscord sampleApp botTextDenied (PlainText "hi")
                  (Some alice) (Some replyWithAuthor))
       = Ok sent.
Proof.
  split; [|split; [|split; [|split]]].
  - destruct (proj1 (proj2 (sendToDiscord_commits_to_one_mechanism sampleApp
                              textWithHook (PlainText "hi") (Some alice)
                              None))
                alice workingApi eq_refl eq_refl eq_refl)
      as (hook & content & opts & _ & Hsends & _).
    exists hook, content, opts. exact Hsends.
  - destruct (proj1 (proj2 (proj2
                (sendToDiscord_commits_to_one_mechanism sampleApp
                   botTextDenied (PlainText "hi") (Some alice)
                   (Some replyWithAuthor))))
                alice eq_refl eq_refl eq_refl eq_refl eq_refl)
      as (embed & Hsends & _).
    exists embed. exact Hsends.
  - exact (proj2 (proj1 (proj2 (proj2 (proj2
             (sendToDiscord_commits_to_one_mechanism sampleApp
                botTextDenied (PlainText "hi") (Some alice)
                (Some replyWithUnnamedAuthor)))))
             alice eq_refl eq_refl eq_refl eq_refl)).
  - exact (proj1 (proj1 (proj2 (proj2 (proj2 (proj2
             (sendToDiscord_commits_to_one_mechanism sampleApp
                userTextDenied (PlainText "hi") (Some alice) None)))))
             alice eq_refl eq_refl eq_refl)).
  - apply (proj2 (proj2 (proj2 (proj2 (proj2
             (sendToDiscord_commits_to_one_mechanism sampleApp botTextDenied
                (PlainText "hi") (Some alice) (Some replyWithAuthor))))))).
    + intros content extra. exists (OneMessage message1). reflexivity.
    + intros api hook content opts H. injection H as <-.
      exists (ManyMessages [message1]). reflexivity.
    + reflexivity.
    + reflexivity.
Defined.

(** ** C5: webhook lookup or creation rejected, bot account *)

(** C5 (amended).  With a sending identity, on a text channel, for a bot
    account, when webhook lookup or creation is rejected: exactly one warning
    is logged, nothing is sent through a webhook, and, provided a reply embed
    with descriptive text carries an author with a name that is not empty,
    the one send is the channel's send of an embed whose author is the
    sending identity (display name, avatar and profile link), whose fields
    are the two reply fields or none, and whose title, description and image
    follow from the payload; the outcome is the channel's answer to that
    send, not the rejection. *)
Theorem webhook_denied_bot_sends_embed
  (app : App) (chan : Channel) (api : WebhookApi) (msg : Payload)
  (asUser : ISendingUser) (replyEmbed : option MessageEmbed) :
  chan_class chan = TextChannel api ->
  clientUserBot chan = true ->
  webhookDenied api = true ->
  length (warningsOf
            (trace (sendToDiscord app chan msg (Some asUser) replyEmbed))) = 1
  /\ (replyLacksAuthor replyEmbed = false ->
      replyAuthorUnnamed replyEmbed = false ->
      exists embed,
        sendsOf (trace (sendToDiscord app chan msg (Some asUser) replyEmbed))
        = [CallChanSend (SendEmbed embed) None]
        /\ outcome (sendToDiscord app chan msg (Some asUser) replyEmbed)
           = send chan (SendEmbed embed) None
        /\ author embed
           = Some {| author_name := displayname asUser;
                     author_iconURL := orUndefined (avatarUrl asUser);
                     author_url :=
                       Some ("https://matrix.to/#/" ++ mxid asUser) |}
        /\ fields embed = replyFields replyEmbed
        /\ match msg with
           | PlainText body =>
               title embed = None
               /\ description embed = Some body
               /\ image embed = None
           | RichEmbed m =>
               match image m with
               | Some i =>
                   title embed = Some (resolveString (title m))
                   /\ description embed = None
                   /\ image embed = Some {| image_url := image_url i |}
               | None =>
                   title embed = None
                   /\ description embed = None
                   /\ image embed = None
               end
           | FileAttachment f =>
               if isImage f
               then title embed = Some (filename f)
                    /\ description embed = None
                    /\ image embed = Some {| image_url := url f |}
               else title embed = None
                    /\ description embed
                       = Some ("Uploaded a file `"
                               ++ discordEscape app (filename f)
                               ++ "`: " ++ url f)
                    /\ image embed = None
           end).
Proof.
  intros Hc Hbot Hd.
  destruct (sendToDiscord_relay app chan msg asUser replyEmbed)
    as (logs & Hlogs & [(api' & h & Hc' & Hd' & _)|(Hno & Hw & Hrun)]).
  { rewrite Hc in Hc'. injection Hc' as <-. congruence. }
  rewrite Hrun, Hbot. cbn [trace outcome fst snd].
  unfold isTextChannel in Hw. rewrite Hc in Hw.
  rewrite warningsOf_app, sendsOf_app, Hlogs, length_app, Hw.
  split.
  - destruct (embedRelay_shape app chan msg asUser replyEmbed)
      as [(e & Hthrow)|(embed & Hembed)].
    + rewrite Hthrow. reflexivity.
    + rewrite Hembed. reflexivity.
  - intros Hnull Hname.
    destruct (embedRelay_run app chan msg asUser _ Hnull Hname)
      as (embed & Hembed & Hauthor & Htitle & Hdescr & Himage & Hfields).
    rewrite Hembed. exists embed.
    split; [reflexivity|]. split; [reflexivity|].
    split; [exact Hauthor|]. split; [exact Hfields|].
    rewrite Htitle, Hdescr, Himage.
    destruct msg as [body|m|f]; cbn [embedOfPayload].
    + repeat split.
    + destruct (image m) as [i|]; repeat split.
    + destruct (isImage f); repeat split.
Qed.

(** The reply embed has descriptive text and an author whose name is the
    empty string: the client library refuses the field [Replying to], the
    embed relay throws, and nothing is sent. *)
Lemma webhook_denied_reply_author_unnamed_throws :
  webhookDenied deniedApi = true
  /\ clientUserBot botTextDenied = true
  /\ sendsOf (trace (sendToDiscord sampleApp botTextDenied (PlainText "hi")
                       (Some alice) (Some replyWithUnnamedAuthor))) = []
  /\ outcome (sendToDiscord sampleApp botTextDenied (PlainText "hi")
                (Some alice) (Some replyWithUnnamedAuthor))
     = Err EmbedFieldValueError.
Proof. repeat split. Qed.

Lemma webhook_denied_bot_sends_embed_witness :
  length (warningsOf
            (trace (sendToDiscord sampleApp botTextDenied (PlainText "hi")
                      (Some alice) (Some replyWithAuthor)))) = 1
  /\ exists embed,
       sendsOf (trace (sendToDiscord sampleApp botTextDenied (PlainText "hi")
                         (Some alice) (Some replyWithAuthor)))
       = [CallChanSend (SendEmbed embed) None]
       /\ outcome (sendToDiscord sampleApp botTextDenied (PlainText "hi")
                     (Some alice) (Some replyWithAuthor))
          = send botTextDenied (SendEmbed embed) None
       /\ option_map author_name (author embed) = Some (displayname alice)
       /\ description embed = Some "hi"
       /\ fields embed
          = [{| field_name := "Replying to"; field_value := "bob" |};
             {| field_name := "Reply text"; field_value := "quoted" |}].
Proof.
  destruct (webhook_denied_bot_sends_embed sampleApp botTextDenied
              deniedApi (PlainText "hi") alice (Some replyWithAuthor)
              eq_refl eq_refl eq_refl) as [Hwarn Hembed].
  split; [exact Hwarn|].
  destruct (Hembed eq_refl eq_refl)
    as (embed & Hsends & Hout & Hauthor & Hfields & _ & Hdescr & _).
  exists embed. split; [exact Hsends|]. split; [exact Hout|].
  split; [rewrite Hauthor; reflexivity|]. split; [exact Hdescr|exact Hfields].
Defined.

(** ** C6 and C9: the prefixed plain-text relay *)

Lemma replySuffix_quote (r : MessageEmbed) (d : string) :
  description r = Some d -> d <> "" ->
  replySuffix (Some r) = newline ++ ">>> " ++ d.
Proof.
  intros Hd Hne. unfold replySuffix. rewrite Hd.
  apply nonempty_true in Hne. rewrite Hne. reflexivity.
Qed.

Lemma replySuffix_nothing (replyEmbed : option MessageEmbed) :
  nothingToQuote replyEmbed -> replySuffix replyEmbed = "".
Proof.
  intros [->|(r & -> & Hr)]; [reflexivity|].
  unfold replySuffix. unfold truthy in Hr.
  destruct (description r) as [d|]; [|reflexivity].
  rewrite Hr. reflexivity.
Qed.

(** A relayed send by an account that is no bot, no webhook to be had:
    the one send is [chan.send] of the prefixed text. *)
Lemma sendToDiscord_plain (app : App) (chan : Channel) (msg : Payload)
  (asUser : ISendingUser) (replyEmbed : option MessageEmbed) :
  clientUserBot chan = false ->
  noWebhook chan = true ->
  sendsOf (trace (sendToDiscord app chan msg (Some asUser) replyEmbed))
  = [CallChanSend
       (SendString (prefixedText app msg asUser ++ replySuffix replyEmbed))
       None]
  /\ outcome (sendToDiscord app chan msg (Some asUser) replyEmbed)
     = send chan
         (SendString (prefixedText app msg asUser ++ replySuffix replyEmbed))
         None.
Proof.
  intros Hbot Hno.
  destruct (sendToDiscord_relay app chan msg asUser replyEmbed)
    as (logs & Hlogs & [(api & h & Hc & Hd & _)|(_ & _ & Hrun)]).
  { unfold noWebhook in Hno. rewrite Hc in Hno. congruence. }
  rewrite Hrun, Hbot, plainRelay_run. cbn [trace outcome fst snd].
  rewrite sendsOf_app, Hlogs. split; reflexivity.
Qed.

(** C6.  With a sending identity, for an account that is no bot, when no
    webhook is to be had, a plain-text payload goes out as one message,
    [**<escaped name>**: <body>], followed by a line feed and the block quote
    [>>> <description>] when the reply embed has descriptive text. *)
Theorem plain_relay_of_plain_text
  (app : App) (chan : Channel) (body : string)
  (asUser : ISendingUser) (replyEmbed : option MessageEmbed) :
  clientUserBot chan = false ->
  noWebhook chan = true ->
  exists text,
    sendsOf (trace (sendToDiscord app chan (PlainText body) (Some asUser)
                      replyEmbed))
    = [CallChanSend (SendString text) None]
    /\ outcome (sendToDiscord app chan (PlainText body) (Some asUser)
                  replyEmbed)
       = send chan (SendString text) None
    /\ (forall r d,
          replyEmbed = Some r -> description r = Some d -> d <> "" ->
          text = "**" ++ discordEscape app (displayname asUser) ++ "**: "
                 ++ body ++ newline ++ ">>> " ++ d)
    /\ (nothingToQuote replyEmbed ->
        text = "**" ++ discordEscape app (displayname asUser) ++ "**: "
               ++ body).
Proof.
  intros Hbot Hno.
  destruct (sendToDiscord_plain app chan (PlainText body) asUser replyEmbed
              Hbot Hno) as [Hsends Hout].
  eexists. split; [exact Hsends|]. split; [exact Hout|]. split.
  - intros r d -> Hd Hne. rewrite (replySuffix_quote r d Hd Hne).
    cbn [prefixedText]. rewrite !append_assoc. reflexivity.
  - intros Hnone. rewrite (replySuffix_nothing _ Hnone), append_nil_r.
    reflexivity.
Qed.

Lemma plain_relay_of_plain_text_witness :
  exists text,
    sendsOf (trace (sendToDiscord sampleApp userTextDenied (PlainText "hi")
                      (Some alice) (Some replyWithAuthor)))
    = [CallChanSend (SendString text) None]
    /\ outcome (sendToDiscord sampleApp userTextDenied (PlainText "hi")
                  (Some alice) (Some replyWithAuthor))
       = send userTextDenied (SendString text) None
    /\ text = "**" ++ discordEscape sampleApp (displayname alice) ++ "**: "
              ++ "hi" ++ newline ++ ">>> " ++ "quoted".
Proof.
  destruct (plain_relay_of_plain_text sampleApp userTextDenied "hi" alice
              (Some replyWithAuthor) eq_refl eq_refl)
    as (text & Hsends & Hout & Hquote & _).
  exists text. split; [exact Hsends|]. split; [exact Hout|].
  apply (Hquote replyWithAuthor "quoted" eq_refl eq_refl).
  discriminate.
Defined.

(** In the prefixed plain-text relay of a rich-embed payload with no image,
    the text holds no sender prefix at all: it is empty, or just the line
    feed and block quote of the reply embed's descriptive text; that text is
    what [chan.send] is given, and the outcome is the channel's answer to
    it. *)
Theorem plain_relay_of_imageless_embed
  (app : App) (chan : Channel) (m : MessageEmbed)
  (asUser : ISendingUser) (replyEmbed : option MessageEmbed) :
  clientUserBot chan = false ->
  noWebhook chan = true ->
  image m = None ->
  exists text,
    sendsOf (trace (sendToDiscord app chan (RichEmbed m) (Some asUser)
                      replyEmbed))
    = [CallChanSend (SendString text) None]
    /\ outcome (sendToDiscord app chan (RichEmbed m) (Some asUser)
                  replyEmbed)
       = send chan (SendString text) None
    /\ (forall r d,
          replyEmbed = Some r -> description r = Some d -> d <> "" ->
          text = newline ++ ">>> " ++ d)
    /\ (nothingToQuote replyEmbed -> text = "").
Proof.
  intros Hbot Hno Himage.
  destruct (sendToDiscord_plain app chan (RichEmbed m) asUser replyEmbed
              Hbot Hno) as [Hsends Hout].
  eexists. split; [exact Hsends|]. split; [exact Hout|].
  cbn [prefixedText]. rewrite Himage. cbn [append]. split.
  - intros r d -> Hd Hne. exact (replySuffix_quote r d Hd Hne).
  - intros Hnone. exact (replySuffix_nothing _ Hnone).
Qed.

(** C9.  An embed with no image, relayed as text by an account that is no
    bot on a DM channel: lines 149-157 write nothing, so the message handed
    to the channel's send is the empty string; it does not start with the
    bold escaped name that line 145 computed and that every other branch
    writes, and the remote network refuses it. *)
Lemma plain_relay_of_imageless_embed_is_empty :
  sendsOf (trace (sendToDiscord sampleApp userDMStrict (RichEmbed newEmbed)
                    (Some alice) None))
  = [CallChanSend (SendString "") None]
  /\ startsWith ("**" ++ discordEscape sampleApp (displayname alice) ++ "**")
       "" = false
  /\ outcome (sendToDiscord sampleApp userDMStrict (RichEmbed newEmbed)
                (Some alice) None)
     = Err "Cannot send an empty message".
Proof. repeat split. Qed.

Lemma plain_relay_of_imageless_embed_witness :
  exists text,
    sendsOf (trace (sendToDiscord sampleApp userDM (RichEmbed newEmbed)
                      (Some alice) (Some replyWithAuthor)))
    = [CallChanSend (SendString text) None]
    /\ text = newline ++ ">>> " ++ "quoted".
Proof.
  destruct (plain_relay_of_imageless_embed sampleApp userDM newEmbed alice
              (Some replyWithAuthor) eq_refl eq_refl eq_refl)
    as (text & Hsends & _ & Hquote & _).
  exists text. split; [exact Hsends|].
  apply (Hquote replyWithAuthor "quoted" eq_refl eq_refl).
  discriminate.
Defined.

(** ** C3: which names are escaped *)

(** C3 (amended).  In a relayed send the display name, the file name and the
    embed title are passed through [discordEscape] where they are written
    into message text: in every branch of the prefixed plain-text relay that
    writes them (text, file, embed with an image, titled or not; an embed
    without image writes no name at all), and in the description the embed
    relay builds for a file that is no image.  The webhook relay hands the
    display name over as the webhook user name, and the file name as the
    attachment name, unescaped; the embed relay sets the embed author name,
    and the title taken from an image file or from an embed with an image
    (turned into a string by the library), unescaped. *)
Theorem relay_escapes_names_in_text_only
  (app : App) (chan : Channel) (msg : Payload)
  (asUser : ISendingUser) (replyEmbed : option MessageEmbed) :
  Forall
    (fun ev =>
       match ev with
       | CallHookSend _ _ opts =>
           username opts = displayname asUser
           /\ (forall f, msg = FileAttachment f ->
                 map attachment_name (files opts) = [filename f])
       | CallChanSend (SendEmbed embed) _ =>
           option_map author_name (author embed) = Some (displayname asUser)
           /\ (forall f, msg = FileAttachment f -> isImage f = true ->
                 title embed = Some (filename f))
           /\ (forall m i, msg = RichEmbed m -> image m = Some i ->
                 title embed = Some (resolveString (title m)))
           /\ (forall f, msg = FileAttachment f -> isImage f = false ->
                 description embed
                 = Some ("Uploaded a file `" ++ discordEscape app (filename f)
                         ++ "`: " ++ url f))
       | CallChanSend (SendString text) _ =>
           (forall body, msg = PlainText body ->
              text = "**" ++ discordEscape app (displayname asUser) ++ "**: "
                     ++ body ++ replySuffix replyEmbed)
           /\ (forall f, msg = FileAttachment f ->
                 text = "**" ++ discordEscape app (displayname asUser)
                        ++ "** uploaded a file `"
                        ++ discordEscape app (filename f)
                        ++ "`: " ++ url f ++ replySuffix replyEmbed)
           /\ (forall m i t,
                 msg = RichEmbed m -> image m = Some i ->
                 title m = Some t -> t <> "" ->
                 text = "**" ++ discordEscape app (displayname asUser)
                        ++ "** uploaded a file `" ++ discordEscape app t
                        ++ "`: " ++ imageToString i ++ replySuffix replyEmbed)
           /\ (forall m i,
                 msg = RichEmbed m -> image m = Some i ->
                 truthy (title m) = false ->
                 text = "**" ++ discordEscape app (displayname asUser)
                        ++ "** uploaded a file: " ++ imageToString i
                        ++ replySuffix replyEmbed)
           /\ (forall m,
                 msg = RichEmbed m -> image m = None ->
                 text = replySuffix replyEmbed)
       | _ => True
       end)
    (trace (sendToDiscord app chan msg (Some asUser) replyEmbed)).
Proof.
  destruct (sendToDiscord_relay app chan msg asUser replyEmbed)
    as (logs & Hlogs & [(api & h & _ & _ & _ & Hrun)|(_ & _ & Hrun)]);
    rewrite Hrun; cbn [trace fst]; apply Forall_app; split;
    try (apply sendsOf_nil_Forall in Hlogs;
         eapply Forall_impl; [|exact Hlogs];
         intros [| | | |? ? ?|? ?]; cbn; intros; trivial; discriminate).
  - destruct (webhookSend_run api h (toSendThing msg) asUser replyEmbed)
      as (content & opts & Hsend & Hname & Hfiles).
    rewrite Hsend. repeat constructor; [exact Hname|].
    intros f ->. rewrite (Hfiles _ eq_refl). reflexivity.
  - destruct (clientUserBot chan).
    + destruct (replyLacksAuthor replyEmbed) eqn:Hnull.
      { rewrite (embedRelay_throws _ _ _ _ _ Hnull). repeat constructor. }
      destruct (replyAuthorUnnamed replyEmbed) eqn:Hunnamed.
      { rewrite (embedRelay_refused _ _ _ _ _ Hunnamed). repeat constructor. }
      destruct (embedRelay_run app chan msg asUser _ Hnull Hunnamed)
        as (embed & Hembed & Hauthor & Htitle & Hdescr & _).
      rewrite Hembed. cbn [trace fst]. repeat constructor.
      * rewrite Hauthor. reflexivity.
      * intros f -> Himg. rewrite Htitle. cbn. rewrite Himg. reflexivity.
      * intros m i -> Himg. rewrite Htitle. cbn. rewrite Himg. reflexivity.
      * intros f -> Himg. rewrite Hdescr. cbn. rewrite Himg. reflexivity.
    + rewrite plainRelay_run. cbn [trace fst]. repeat constructor.
      * intros body ->. cbn [prefixedText]. rewrite !append_assoc.
        reflexivity.
      * intros f ->. cbn [prefixedText]. rewrite !append_assoc. reflexivity.
      * intros m i t -> Hi Ht Hne. cbn [prefixedText]. rewrite Hi, Ht.
        apply nonempty_true in Hne. rewrite Hne.
        rewrite !append_assoc. reflexivity.
      * intros m i -> Hi Ht. cbn [prefixedText]. rewrite Hi.
        unfold truthy in Ht. destruct (title m) as [t|].
        -- rewrite Ht. rewrite !append_assoc. reflexivity.
        -- rewrite !append_assoc. reflexivity.
      * intros m -> Hi. cbn [prefixedText]. rewrite Hi. reflexivity.
Qed.

(** The display name [al*ce] escapes to [al\*ce], yet the webhook user name
    and the embed author name are [al*ce]; the file name [my_cat.png]
    escapes to [my\_cat.png], yet the embed title is [my_cat.png]. *)
Lemma webhook_and_embed_relay_insert_raw_names :
  discordEscape sampleApp (displayname alice) = "al\*ce"
  /\ discordEscape sampleApp (filename imageFile) = "my\_cat.png"
  /\ sendsOf (trace (sendToDiscord sampleApp textWithHook (PlainText "hi")
                       (Some alice) None))
     = [CallHookSend matrixHook (Some "hi")
          {| username := "al*ce"; avatarURL := None; embeds := [];
             split := true; files := [] |}]
  /\ sendsOf (trace (sendToDiscord sampleApp botTextDenied
                       (FileAttachment imageFile) (Some alice) None))
     = [CallChanSend
          (SendEmbed
             {| title := Some "my_cat.png"; description := None;
                image := Some {| image_url := "https://example.org/my_cat.png" |};
                author := Some {| author_name := "al*ce";
                                  author_iconURL := None;
                                  author_url :=
                                    Some "https://matrix.to/#/@alice:example.org" |};
                fields := [] |})
          None].
Proof. repeat split. Qed.

(** ** C2 and C10: the presence translator *)

(** The loop runs to its end exactly when every activity but the last
    renders to the empty string; the status line is then what the last one
    renders to. *)
Lemma scanActivities_app (acts : list Activity) (last : Activity)
  (statusMsg : string) :
  scanActivities (acts ++ [last]) statusMsg
  = match scanActivities acts statusMsg with
    | Some "" => Some (statusOfActivity last)
    | _ => None
    end.
Proof.
  revert statusMsg. induction acts as [|a acts IH]; intros statusMsg; cbn.
  - destruct statusMsg; reflexivity.
  - destruct statusMsg; cbn; [apply IH|reflexivity].
Qed.

(** A second activity after one that renders to something: the method
    returns from inside the loop. *)
Lemma scanActivities_returns_early (a b : Activity) (rest : list Activity) :
  statusOfActivity a <> "" ->
  scanActivities (a :: b :: rest) "" = None.
Proof.
  intros Hne. cbn. apply nonempty_true in Hne. unfold nonempty in Hne.
  rewrite Hne. reflexivity.
Qed.

Lemma scanActivities_all_blank (acts : list Activity) :
  Forall (fun a => statusOfActivity a = "") acts ->
  scanActivities acts "" = Some "".
Proof.
  induction acts as [|a acts IH]; intros H; [reflexivity|].
  inversion H as [|? ? Ha Hrest]; subst. cbn. rewrite Ha. exact (IH Hrest).
Qed.

(** C2.  With two activities, the first of which renders to [Playing
    Chess], the method returns at line 192, inside the loop: neither the
    presence nor the status line is set.  With that activity alone both are
    set. *)
Theorem updatePresence_second_activity_drops_the_update :
  updatePresence sampleApp 1
    (Some (presenceOf [playingChess; listeningToRadio]))
  = ([], Ok tt)
  /\ updatePresence sampleApp 1 (Some (presenceOf [playingChess]))
     = ([SetUserPresence (getRemoteUser sampleApp 1 bob) MatrixUnavailable;
         SetUserStatus (getRemoteUser sampleApp 1 bob) "Playing Chess"],
        Ok tt).
Proof. split; reflexivity. Qed.

(** C10.  When the method gets as far as the loop (there is a puppet and the
    presence has a user): the status setter is called only with the status
    line the loop ended with, and only when that line is not empty; and when
    the loop ends with an empty line, which is the case when every activity
    renders to the empty string, the presence setter is called with the
    mapped presence and the status setter is not called. *)
Theorem status_setter_needs_nonempty_line
  (app : App) (puppetId : Z) (presence : Presence) (user : User) :
  hasPuppet app puppetId = true ->
  presence_user presence = Some user ->
  (forall remoteUser statusMsg,
     In (SetUserStatus remoteUser statusMsg)
        (trace (updatePresence app puppetId (Some presence))) ->
     statusMsg <> ""
     /\ scanActivities (activities presence) "" = Some statusMsg)
  /\ (scanActivities (activities presence) "" = Some "" ->
      trace (updatePresence app puppetId (Some presence))
      = [SetUserPresence (getRemoteUser app puppetId user)
           (matrixPresenceOf (status presence))])
  /\ (Forall (fun a => statusOfActivity a = "") (activities presence) ->
      trace (updatePresence app puppetId (Some presence))
      = [SetUserPresence (getRemoteUser app puppetId user)
           (matrixPresenceOf (status presence))]).
Proof.
  intros Hpuppet Huser.
  assert (Hblank :
    scanActivities (activities presence) "" = Some "" ->
    trace (updatePresence app puppetId (Some presence))
    = [SetUserPresence (getRemoteUser app puppetId user)
         (matrixPresenceOf (status presence))]).
  { intros Hscan. unfold updatePresence.
    rewrite Hpuppet, Huser, Hscan. reflexivity. }
  split; [|split; [exact Hblank|]].
  - intros remoteUser statusMsg.
    unfold updatePresence. rewrite Hpuppet, Huser. cbn [negb].
    destruct (scanActivities (activities presence) "") as [line|];
      [|intros []].
    destruct (nonempty line) eqn:Hline; cbn.
    + intros [H|[H|[]]]; [discriminate|].
      injection H as _ <-. split; [|reflexivity].
      apply nonempty_true. exact Hline.
    + intros [H|[]]. discriminate.
  - intros Hall. apply Hblank. apply scanActivities_all_blank. exact Hall.
Qed.

Lemma status_setter_needs_nonempty_line_witness :
  trace (updatePresence sampleApp 1 (Some (presenceOf [blankCustomStatus])))
  = [SetUserPresence (getRemoteUser sampleApp 1 bob) MatrixUnavailable].
Proof.
  apply (proj1 (proj2 (status_setter_needs_nonempty_line sampleApp 1
                         (presenceOf [blankCustomStatus]) bob
                         eq_refl eq_refl))).
  reflexivity.
Defined.

(** ** C4 and C7: the resolvers *)

(** What [getUserById] answers, source by source. *)
Lemma getUserById_cases (client : Client) (id : string) :
  getUserById client id
  = match findMember (client_guilds client) id with
    | Some user => ([], Ok (Some user))
    | None =>
        match find (fun u => (user_id u =? id)%string)
                (client_friends client) with
        | Some user => ([], Ok (Some user))
        | None => ([CallUsersFetch id], usersFetch client id)
        end
    end.
Proof.
  unfold getUserById.
  destruct (findMember _ id); [reflexivity|].
  destruct (find _ (client_friends client)); [reflexivity|].
  unfold await. cbn.
  destruct (usersFetch client id) as [[user|]|e]; reflexivity.
Qed.

(** [null] is returned exactly when no guild has the member, the friends
    list does not have the user, and the fetch resolves to nothing. *)
Lemma getUserById_null (client : Client) (id : string) :
  outcome (getUserById client id) = Ok None
  <-> findMember (client_guilds client) id = None
      /\ find (fun u => (user_id u =? id)%string) (client_friends client)
         = None
      /\ usersFetch client id = Ok None.
Proof.
  rewrite getUserById_cases.
  destruct (findMember _ id); cbn.
  { split; [discriminate|intros (H & _); discriminate]. }
  destruct (find _ (client_friends client)); cbn.
  { split; [discriminate|intros (_ & H & _); discriminate]. }
  split; [intros H; repeat split; exact H|intros (_ & _ & H); exact H].
Qed.

(** A rejected fetch is rethrown. *)
Lemma getUserById_rethrows (client : Client) (id : string) (e : Error) :
  outcome (getUserById client id) = Err e
  <-> findMember (client_guilds client) id = None
      /\ find (fun u => (user_id u =? id)%string) (client_friends client)
         = None
      /\ usersFetch client id = Err e.
Proof.
  rewrite getUserById_cases.
  destruct (findMember _ id); cbn.
  { split; [discriminate|intros (H & _); discriminate]. }
  destruct (find _ (client_friends client)); cbn.
  { split; [discriminate|intros (_ & H & _); discriminate]. }
  split; [intros H; repeat split; exact H|intros (_ & _ & H); exact H].
Qed.

(** C4.  No guild member, no friend, and the fetch by id is rejected: the
    rejection reaches the caller of [getUserById]; [null] is not returned. *)
Theorem getUserById_rejected_fetch_is_thrown :
  findMember (client_guilds lonelyClient) "42" = None
  /\ find (fun u => (user_id u =? "42")%string) (client_friends lonelyClient)
     = None
  /\ usersFetch lonelyClient "42" = Err "Unknown User"
  /\ getUserById lonelyClient "42"
     = ([CallUsersFetch "42"], Err "Unknown User").
Proof. repeat split. Qed.

Lemma substring_all (s : string) : substring 0 (String.length s) s = s.
Proof. induction s as [|c s IH]; cbn; [reflexivity|now rewrite IH]. Qed.

(** A DM-prefixed id is the prefix followed by the token looked up. *)
Lemma dm_prefix_split (id : string) :
  startsWith "dm-" id = true ->
  id = "dm-" ++ substringFrom (String.length "dm-") id.
Proof.
  unfold startsWith, substringFrom. intros H.
  apply prefix_correct in H.
  destruct id as [|c1 [|c2 [|c3 rest]]]; cbn in H; try discriminate.
  injection H as -> -> ->.
  cbn. rewrite Nat.sub_0_r, substring_all. reflexivity.
Qed.

(** C7 (amended).  For a DM-prefixed id, the prefix is stripped and the rest
    is resolved by [getUserById].  When that yields a user, the
    direct-message channel with the user is opened: the channel is returned
    if opening succeeds, and a rejection of the opening reaches the caller.
    When it yields [null], [null] is returned and no channel is opened. *)
Theorem getDiscordChan_dm
  (client : Client) (id : string) :
  startsWith "dm-" id = true ->
  id = "dm-" ++ substringFrom 3 id
  /\ (forall user,
        outcome (getUserById client (substringFrom 3 id)) = Ok (Some user) ->
        trace (getDiscordChan client id)
        = (trace (getUserById client (substringFrom 3 id))
           ++ [CallCreateDM (user_id user)])%list
        /\ outcome (getDiscordChan client id)
           = match createDM user with
             | Ok chan => Ok (Some chan)
             | Err e => Err e
             end)
  /\ (outcome (getUserById client (substringFrom 3 id)) = Ok None ->
      getDiscordChan client id
      = (trace (getUserById client (substringFrom 3 id)), Ok None)).
Proof.
  intros Hdm. split; [exact (dm_prefix_split id Hdm)|].
  unfold getDiscordChan. rewrite Hdm. cbn [negb String.length].
  destruct (getUserById client (substringFrom 3 id)) as [t [[user|]|e]];
    cbn [outcome trace fst snd]; split.
  - intros user' H. injection H as <-. cbn.
    destruct (createDM user); cbn; rewrite ?app_nil_r; split; reflexivity.
  - intros H. discriminate.
  - intros user' H. discriminate.
  - intros _. cbn. rewrite app_nil_r. reflexivity.
  - intros user' H. discriminate.
  - intros H. discriminate.
Qed.

(** Carol is found among the guild members, but the direct-message channel
    with her cannot be opened: neither a channel nor [null] comes back. *)
Lemma getDiscordChan_dm_open_rejected :
  outcome (getUserById clientWithFriends "43") = Ok (Some carol)
  /\ getDiscordChan clientWithFriends "dm-43"
     = ([CallCreateDM "43"], Err "Cannot send messages to this user").
Proof. split; reflexivity. Qed.

Lemma getDiscordChan_dm_witness :
  outcome (getDiscordChan clientWithFriends "dm-42") = Ok (Some userDM).
Proof.
  destruct (getDiscordChan_dm clientWithFriends "dm-42" eq_refl)
    as (_ & Hfound & _).
  exact (proj2 (Hfound bob eq_refl)).
Defined.

(** ** C8: the guild structure walk *)

(** A loop whose body never throws performs the operations of each round
    in turn. *)
Lemma forEach_run (E A : Type) (xs : list A) (body : A -> Async E unit) :
  (forall x, outcome (body x) = Ok tt) ->
  forEach xs body = (flat_map (fun x => trace (body x)) xs, Ok tt).
Proof.
  intros Hok. induction xs as [|x xs IH]; [reflexivity|].
  cbn [forEach flat_map]. rewrite IH.
  rewrite (run_eta _ _ (body x)), Hok. reflexivity.
Qed.

Lemma qualifies_split (app : App) (puppetId : Z) (guild : Guild)
  (chan : Channel) :
  qualifies app puppetId guild chan
  = bridged (getBridgedGuilds app puppetId) (getBridgedChannels app puppetId)
      guild chan
    && (isTextChannel chan
        && includes (members chan) (guild_clientUserId guild)).
Proof. unfold qualifies. rewrite andb_assoc. reflexivity. Qed.

(** The children of one category: the category is announced before the
    first qualifying child unless it has been already, then every qualifying
    child follows. *)
Lemma iterateChildren_run (app : App) (puppetId : Z) (guild : Guild)
  (cat : Channel) (chans : list Channel) (doCat : bool) :
  iterateChildren (getBridgedGuilds app puppetId)
    (getBridgedChannels app puppetId) guild cat chans doCat
  = (if doCat
     then map ChanCallback (filter (qualifies app puppetId guild) chans)
     else announce cat (filter (qualifies app puppetId guild) chans),
     Ok tt).
Proof.
  revert doCat. induction chans as [|chan chans IH]; intros doCat.
  - destruct doCat; reflexivity.
  - cbn [iterateChildren filter]. rewrite qualifies_split.
    destruct (bridged _ _ guild chan); cbn [negb andb].
    + destruct (isTextChannel chan
                && includes (members chan) (guild_clientUserId guild)).
      * rewrite (IH true). destruct doCat; reflexivity.
      * apply IH.
    + apply IH.
Qed.

(** The whole walk in closed form. *)
Lemma iterateGuildStructure_run (app : App) (puppetId : Z) (guild : Guild) :
  iterateGuildStructure app puppetId guild
  = ((map ChanCallback
        (filter (uncategorized app puppetId guild) (guild_channels guild))
      ++ flat_map
           (fun cat =>
              if visibleCategory guild cat
              then announce cat
                     (filter (qualifies app puppetId guild)
                        (children guild cat))
              else [])
           (guild_channels guild))%list,
     Ok tt).
Proof.
  unfold iterateGuildStructure.
  rewrite forEach_run, bind_ok.
  2:{ intros chan. destruct (negb _); [reflexivity|].
      destruct (_ && _); reflexivity. }
  rewrite forEach_run.
  2:{ intros cat. destruct (negb _); [reflexivity|].
      destruct (includes _ _); [|reflexivity].
      rewrite iterateChildren_run. reflexivity. }
  cbn [trace outcome fst snd]. f_equal. f_equal.
  - induction (guild_channels guild) as [|chan chans IH]; [reflexivity|].
    cbn [flat_map filter map]. rewrite IH.
    unfold uncategorized. rewrite qualifies_split.
    destruct (bridged _ _ guild chan); cbn [negb andb]; [|reflexivity].
    destruct (isTextChannel chan); cbn [andb];
      [|rewrite andb_false_r; reflexivity].
    destruct (includes _ _); cbn [andb];
      [|rewrite andb_false_r; reflexivity].
    destruct (truthy (parentID chan)); reflexivity.
  - apply flat_map_ext. intros cat. unfold visibleCategory.
    destruct (isCategoryChannel cat); cbn [negb andb]; [|reflexivity].
    destruct (includes _ _); [|reflexivity].
    rewrite iterateChildren_run. reflexivity.
Qed.

Lemma catCalls_app (t1 t2 : list WalkEvent) :
  catCalls (t1 ++ t2) = (catCalls t1 ++ catCalls t2)%list.
Proof.
  induction t1 as [|[cat|chan] t1 IH]; cbn; [reflexivity| |exact IH].
  now rewrite IH.
Qed.

Lemma chanCalls_app (t1 t2 : list WalkEvent) :
  chanCalls (t1 ++ t2) = (chanCalls t1 ++ chanCalls t2)%list.
Proof.
  induction t1 as [|[cat|chan] t1 IH]; cbn; [reflexivity|exact IH|].
  now rewrite IH.
Qed.

Lemma catCalls_chans (chans : list Channel) :
  catCalls (map ChanCallback chans) = [].
Proof. induction chans; cbn; auto. Qed.

Lemma chanCalls_chans (chans : list Channel) :
  chanCalls (map ChanCallback chans) = map chan_id chans.
Proof. induction chans as [|c chans IH]; cbn; [|rewrite IH]; reflexivity. Qed.

Lemma chanCalls_announce (cat : Channel) (chans : list Channel) :
  chanCalls (announce cat chans) = map chan_id chans.
Proof.
  destruct chans as [|c chans]; [reflexivity|].
  cbn [announce chanCalls]. apply chanCalls_chans.
Qed.

Lemma in_announce_cat (cat cat' : Channel) (chans : list Channel) :
  In (CatCallback cat) (announce cat' chans) -> cat = cat' /\ chans <> [].
Proof.
  destruct chans as [|c chans]; cbn [announce]; [intros []|].
  intros [H|H].
  - injection H as <-. split; [reflexivity|discriminate].
  - apply in_map_iff in H. destruct H as (x & Hx & _). discriminate.
Qed.

(** In a table keyed by id, an id names one channel. *)
Lemma same_id_same_channel (table : list Channel) (a b : Channel) :
  NoDup (map chan_id table) ->
  In a table -> In b table -> chan_id a = chan_id b -> a = b.
Proof.
  induction table as [|c table IH]; cbn; intros Hnd Ha Hb Hid; [easy|].
  apply NoDup_cons_iff in Hnd. destruct Hnd as [Hc Hnd].
  destruct Ha as [->|Ha], Hb as [->|Hb]; auto.
  - exfalso. apply Hc. rewrite Hid. apply in_map. exact Hb.
  - exfalso. apply Hc. rewrite <- Hid. apply in_map. exact Ha.
Qed.

Lemma in_children (guild : Guild) (cat chan : Channel) :
  In chan (children guild cat)
  <-> In chan (guild_channels guild) /\ parentID chan = Some (chan_id cat).
Proof.
  unfold children. rewrite filter_In.
  destruct (parentID chan) as [p|].
  - rewrite String.eqb_eq. split; intros [H1 H2]; split; congruence.
  - split; intros [H1 H2]; discriminate.
Qed.

Lemma NoDup_flat_map (A B : Type) (f : A -> list B) (l : list A) :
  NoDup l ->
  (forall a, In a l -> NoDup (f a)) ->
  (forall a b x, In a l -> In b l -> In x (f a) -> In x (f b) -> a = b) ->
  NoDup (flat_map f l).
Proof.
  induction l as [|a l IH]; intros Hnd Heach Hdisj; cbn; [constructor|].
  apply NoDup_cons_iff in Hnd. destruct Hnd as [Ha Hnd].
  apply NoDup_app.
  - apply Heach. now left.
  - apply IH; [exact Hnd| |].
    + intros b Hb. apply Heach. now right.
    + intros b c x Hb Hc. apply Hdisj; now right.
  - intros x Hx Hx'. apply in_flat_map in Hx'.
    destruct Hx' as (b & Hb & Hxb).
    assert (a = b) by (apply (Hdisj a b x); auto; [now left|now right]).
    subst b. contradiction.
Qed.

Lemma catCalls_flat_map (guild : Guild) (f : Channel -> list Channel)
  (table : list Channel) (id : string) :
  ~ In id (map chan_id table) ->
  ~ In id
      (catCalls
         (flat_map (fun cat => if visibleCategory guild cat
                               then announce cat (f cat) else [])
            table)).
Proof.
  induction table as [|c table IH]; cbn [flat_map map]; intros Hid; [easy|].
  rewrite catCalls_app. intros H. apply in_app_or in H.
  destruct H as [H|H].
  - destruct (visibleCategory guild c); [|easy].
    destruct (f c) as [|x xs]; [easy|].
    cbn [announce catCalls] in H. rewrite catCalls_chans in H.
    destruct H as [H|[]]. apply Hid. now left.
  - revert H. apply IH. intros H. apply Hid. now right.
Qed.

Lemma chanCalls_flat_map (guild : Guild) (f : Channel -> list Channel)
  (table : list Channel) :
  chanCalls
    (flat_map (fun cat => if visibleCategory guild cat
                          then announce cat (f cat) else [])
       table)
  = map chan_id
      (flat_map (fun cat => if visibleCategory guild cat then f cat else [])
         table).
Proof.
  induction table as [|c table IH]; [reflexivity|].
  cbn [flat_map]. rewrite chanCalls_app, map_app, IH. f_equal.
  destruct (visibleCategory guild c); [apply chanCalls_announce|reflexivity].
Qed.

(** C8 (amended).  The walk announces a category only if the acting account
    is a member of it and one of its children passes the allowlist, class
    and membership tests; a category the account is a member of, with at
    least one such child, is announced exactly once, immediately before the
    channel callback of its first such child; a category the account is not
    a member of is not announced, whatever its children.  In a guild whose
    channel table is keyed by distinct, non-empty ids, no channel is handed
    to the channel callback twice. *)
Theorem walk_announces_visible_categories_lazily
  (app : App) (puppetId : Z) (guild : Guild) :
  (forall cat,
     In (CatCallback cat) (trace (iterateGuildStructure app puppetId guild)) ->
     In cat (guild_channels guild)
     /\ visibleCategory guild cat = true
     /\ exists chan,
          In chan (children guild cat)
          /\ qualifies app puppetId guild chan = true)
  /\ (forall cat first rest,
        NoDup (map chan_id (guild_channels guild)) ->
        In cat (guild_channels guild) ->
        visibleCategory guild cat = true ->
        filter (qualifies app puppetId guild) (children guild cat)
        = first :: rest ->
        count_occ string_dec
          (catCalls (trace (iterateGuildStructure app puppetId guild)))
          (chan_id cat) = 1
        /\ exists before after,
             trace (iterateGuildStructure app puppetId guild)
             = (before ++ CatCallback cat :: ChanCallback first :: after)%list)
  /\ (guildWellFormed guild ->
      NoDup (chanCalls (trace (iterateGuildStructure app puppetId guild)))).
Proof.
  rewrite iterateGuildStructure_run. cbn [trace fst].
  split; [|split].
  - intros cat H. apply in_app_or in H. destruct H as [H|H].
    { apply in_map_iff in H. destruct H as (x & Hx & _). discriminate. }
    apply in_flat_map in H. destruct H as (cat' & Hcat' & H).
    destruct (visibleCategory guild cat') eqn:Hvis; [|destruct H].
    apply in_announce_cat in H. destruct H as [-> Hsome].
    split; [exact Hcat'|]. split; [exact Hvis|].
    destruct (filter (qualifies app puppetId guild) (children guild cat'))
      as [|chan chans] eqn:Hq; [congruence|].
    exists chan.
    apply (filter_In (qualifies app puppetId guild) chan (children guild cat')).
    rewrite Hq. now left.
  - intros cat first rest Hnd Hcat Hvis Hq.
    destruct (in_split _ _ Hcat) as (l1 & l2 & Hsplit).
    rewrite Hsplit in Hnd. rewrite map_app in Hnd. cbn [map] in Hnd.
    apply NoDup_remove_2 in Hnd.
    assert (H1 : ~ In (chan_id cat) (map chan_id l1))
      by (intros H; apply Hnd, in_or_app; now left).
    assert (H2 : ~ In (chan_id cat) (map chan_id l2))
      by (intros H; apply Hnd, in_or_app; now right).
    assert (Hshape :
      flat_map
        (fun c => if visibleCategory guild c
                  then announce c (filter (qualifies app puppetId guild)
                                     (children guild c))
                  else [])
        (guild_channels guild)
      = (flat_map
           (fun c => if visibleCategory guild c
                     then announce c (filter (qualifies app puppetId guild)
                                        (children guild c))
                     else [])
           l1
         ++ (CatCallback cat :: ChanCallback first :: map ChanCallback rest)
         ++ flat_map
              (fun c => if visibleCategory guild c
                        then announce c (filter (qualifies app puppetId guild)
                                           (children guild c))
                        else [])
              l2)%list).
    { rewrite Hsplit, flat_map_app. cbn [flat_map].
      rewrite Hvis, Hq. reflexivity. }
    rewrite Hshape. clear Hshape.
    split.
    + rewrite !catCalls_app. cbn [catCalls].
      rewrite !catCalls_chans. rewrite !count_occ_app. cbn [count_occ].
      destruct (string_dec (chan_id cat) (chan_id cat)) as [_|Hne];
        [|congruence].
      apply (catCalls_flat_map guild
               (fun c => filter (qualifies app puppetId guild)
                           (children guild c))) in H1, H2.
      apply (count_occ_not_In string_dec) in H1, H2.
      rewrite H1, H2. reflexivity.
    + match goal with
      | |- exists before after,
             (?A ++ ?B ++ (_ :: _ :: ?R) ++ ?D)%list = _ =>
          exists (A ++ B)%list, (R ++ D)%list
      end.
      rewrite <- app_assoc. reflexivity.
  - intros [Hnd Hids].
    rewrite chanCalls_app, chanCalls_chans, chanCalls_flat_map.
    rewrite <- map_app.
    assert (Hsub : forall x,
              In x (filter (uncategorized app puppetId guild)
                      (guild_channels guild)
                    ++ flat_map
                         (fun cat =>
                            if visibleCategory guild cat
                            then filter (qualifies app puppetId guild)
                                   (children guild cat)
                            else [])
                         (guild_channels guild))%list ->
              In x (guild_channels guild)).
    { intros x Hx. apply in_app_or in Hx. destruct Hx as [Hx|Hx].
      - apply filter_In in Hx. tauto.
      - apply in_flat_map in Hx. destruct Hx as (cat & _ & Hx).
        destruct (visibleCategory guild cat); [|destruct Hx].
        apply filter_In in Hx. destruct Hx as [Hx _].
        apply in_children in Hx. tauto. }
    apply NoDup_map_NoDup_ForallPairs.
    { intros x y Hx Hy. apply (same_id_same_channel _ _ _ Hnd); auto. }
    pose proof (NoDup_map_inv _ _ Hnd) as Hnd'.
    apply NoDup_app.
    + apply NoDup_filter. exact Hnd'.
    + apply NoDup_flat_map; [exact Hnd'| |].
      * intros cat _. destruct (visibleCategory guild cat); [|constructor].
        apply NoDup_filter. unfold children. apply NoDup_filter. exact Hnd'.
      * intros a b x Ha Hb Hxa Hxb.
        destruct (visibleCategory guild a); [|destruct Hxa].
        destruct (visibleCategory guild b); [|destruct Hxb].
        apply filter_In in Hxa, Hxb.
        destruct Hxa as [Hxa _], Hxb as [Hxb _].
        apply in_children in Hxa, Hxb.
        apply (same_id_same_channel _ _ _ Hnd Ha Hb). 
        destruct Hxa as [_ Hpa], Hxb as [_ Hpb]. congruence.
    + intros x Hx Hx'. apply filter_In in Hx. destruct Hx as [_ Hx].
      unfold uncategorized in Hx. apply andb_true_iff in Hx.
      destruct Hx as [_ Hx]. apply negb_true_iff in Hx.
      apply in_flat_map in Hx'. destruct Hx' as (cat & Hcat & Hx').
      destruct (visibleCategory guild cat); [|destruct Hx'].
      apply filter_In in Hx'. destruct Hx' as [Hx' _].
      apply in_children in Hx'. destruct Hx' as [_ Hp].
      rewrite Hp in Hx. cbn [truthy] in Hx.
      rewrite Forall_forall in Hids. specialize (Hids cat Hcat).
      apply nonempty_true in Hids. congruence.
Qed.

(** The acting account sees the text channel [chan1] but not its category
    [cat1]: the channel passes every test, and the walk calls nothing. *)
Lemma walk_skips_category_the_account_is_not_in :
  children guildHiddenCategory (categoryOf "cat1" [])
  = [textUnder "chan1" "cat1"]
  /\ qualifies sampleApp 1 guildHiddenCategory (textUnder "chan1" "cat1")
     = true
  /\ trace (iterateGuildStructure sampleApp 1 guildHiddenCategory) = [].
Proof. repeat split. Qed.

Lemma walk_announces_visible_categories_lazily_witness :
  count_occ string_dec
    (catCalls (trace (iterateGuildStructure sampleApp 1 guildTwoCategories)))
    "cat1" = 1
  /\ (exists before after,
        trace (iterateGuildStructure sampleApp 1 guildTwoCategories)
        = (before
           ++ CatCallback (categoryOf "cat1" ["me"])
              :: ChanCallback (textUnder "chan1" "cat1") :: after)%list)
  /\ NoDup (chanCalls
              (trace (iterateGuildStructure sampleApp 1 guildTwoCategories))).
Proof.
  destruct (walk_announces_visible_categories_lazily sampleApp 1
              guildTwoCategories) as (_ & Honce & Hnodup).
  assert (Hids : NoDup (map chan_id (guild_channels guildTwoCategories))).
  { cbn. repeat constructor; cbn; intuition discriminate. }
  destruct (Honce (categoryOf "cat1" ["me"]) (textUnder "chan1" "cat1")
              [textUnder "chan2" "cat1"] Hids)
    as [Hcount Hplace].
  - cbn. tauto.
  - reflexivity.
  - reflexivity.
  - split; [exact Hcount|]. split; [exact Hplace|].
    apply Hnodup. split; [exact Hids|].
    cbn. repeat constructor; discriminate.
Defined.

(** ** Further properties of the delivery strategist *)

(** X1.  Without a sending identity nothing is asked about webhooks: the
    payload is handed as it is to the channel's send, once, with the reply
    embed attached when there is one and the account is a bot. *)
Theorem direct_send_never_looks_up_webhooks
  (app : App) (chan : Channel) (msg : Payload)
  (replyEmbed : option MessageEmbed) :
  existsb isWebhookLookup (trace (sendToDiscord app chan msg None replyEmbed))
  = false
  /\ sendsOf (trace (sendToDiscord app chan msg None replyEmbed))
     = [CallChanSend (toSendThing msg)
          (if present replyEmbed && clientUserBot chan
           then replyEmbed else None)]
  /\ outcome (sendToDiscord app chan msg None replyEmbed)
     = send chan (toSendThing msg)
         (if present replyEmbed && clientUserBot chan
          then replyEmbed else None).
Proof.
  unfold sendToDiscord, directSend, logDebug, chanSend, await.
  rewrite !bind_emit.
  destruct (present replyEmbed && clientUserBot chan); repeat split.
Qed.



(** ** Further properties of the resolvers *)

Lemma find_first (A : Type) (f : A -> bool) (before : list A) (x : A)
  (after : list A) :
  Forall (fun y => f y = false) before ->
  f x = true ->
  find f (before ++ x :: after) = Some x.
Proof.
  intros Hbefore Hx. induction Hbefore as [|y before Hy _ IH]; cbn.
  - rewrite Hx. reflexivity.
  - rewrite Hy. exact IH.
Qed.

Lemma find_absent (A : Type) (f : A -> bool) (l : list A) :
  Forall (fun y => f y = false) l -> find f l = None.
Proof.
  intros H. induction H as [|y l Hy _ IH]; cbn; [reflexivity|].
  rewrite Hy. exact IH.
Qed.

(** X3.  When [guild] is the first guild of the client, in list order, that
    has a member with the id asked for, and [member] is the first such
    member of that guild, [getUserById] returns the user of [member],
    whatever the friends list holds under the same id, and nothing is
    fetched. *)
Theorem getUserById_prefers_guild_member
  (client : Client) (id : string)
  (earlier : list Guild) (guild : Guild) (later : list Guild)
  (before : list GuildMember) (member : GuildMember)
  (after : list GuildMember) :
  client_guilds client = (earlier ++ guild :: later)%list ->
  Forall (fun g => Forall (fun m => user_id (member_user m) <> id)
                     (guild_members g))
    earlier ->
  guild_members guild = (before ++ member :: after)%list ->
  Forall (fun m => user_id (member_user m) <> id) before ->
  user_id (member_user member) = id ->
  getUserById client id = ([], Ok (Some (member_user member))).
Proof.
  intros Hguilds Hearlier Hmembers Hbefore Hid.
  assert (Hscan : findMember (client_guilds client) id
                  = Some (member_user member)).
  { rewrite Hguilds. clear Hguilds.
    induction Hearlier as [|g earlier Hg _ IH]; cbn [findMember app].
    - rewrite Hmembers, find_first; [reflexivity| |].
      + eapply Forall_impl; [|exact Hbefore].
        intros m Hm. apply String.eqb_neq. exact Hm.
      + apply String.eqb_eq. exact Hid.
    - rewrite find_absent; [exact IH|].
      eapply Forall_impl; [|exact Hg].
      intros m Hm. apply String.eqb_neq. exact Hm. }
  rewrite getUserById_cases, Hscan. reflexivity.
Qed.

Lemma getUserById_prefers_guild_member_witness :
  find (fun u => (user_id u =? "43")%string)
    (client_friends clientKnowingCarolTwice) = Some carolTheFriend
  /\ getUserById clientKnowingCarolTwice "43" = ([], Ok (Some carol)).
Proof.
  split; [reflexivity|].
  apply (getUserById_prefers_guild_member clientKnowingCarolTwice "43"
           [] guildWithCarol [] [] {| member_user := carol |} []).
  - reflexivity.
  - constructor.
  - reflexivity.
  - constructor.
  - reflexivity.
Defined.

(** X4.  An id without the DM prefix that the channel cache holds as a group
    or text channel resolves to that very handle, whatever the guilds hold,
    and no network call is made. *)
Theorem getDiscordChan_cached
  (client : Client) (id : string) (chan : Channel) :
  startsWith "dm-" id = false ->
  getChannel (client_channels client) id = Some chan ->
  isGroupDMChannel chan || isTextChannel chan = true ->
  getDiscordChan client id = ([], Ok (Some chan)).
Proof.
  intros Hdm Hget Hclass. unfold getDiscordChan.
  rewrite Hdm, Hget, Hclass. reflexivity.
Qed.

Lemma getDiscordChan_cached_witness :
  getDiscordChan clientKnowingCarolTwice "lobby" = ([], Ok (Some lobby)).
Proof.
  exact (getDiscordChan_cached clientKnowingCarolTwice "lobby" lobby
           eq_refl eq_refl eq_refl).
Defined.

(** X5.  [null] is returned by [getUserById] exactly when no guild has a
    member of that id, the friends list has no such user, and the fetch
    resolves with nothing; a rejected fetch is not among these cases. *)
Theorem getUserById_returns_null_iff
  (client : Client) (id : string) :
  outcome (getUserById client id) = Ok None
  <-> findMember (client_guilds client) id = None
      /\ find (fun u => (user_id u =? id)%string) (client_friends client)
         = None
      /\ usersFetch client id = Ok None.
Proof. apply getUserById_null. Qed.

(** ** Further properties of the presence translator *)

(** X6.  The remote status [idle] maps to [unavailable], as does [dnd];
    [online] and [offline] map to themselves.  A custom status with an
    emoji and a state renders to the emoji name, a space and the state. *)
Theorem presence_mapping_and_custom_status
  (name : string) (emoji : Emoji) (state : string) :
  state <> "" ->
  matrixPresenceOf Online = MatrixOnline
  /\ matrixPresenceOf Idle = MatrixUnavailable
  /\ matrixPresenceOf Dnd = MatrixUnavailable
  /\ matrixPresenceOf Offline = MatrixOffline
  /\ statusOfActivity
       {| activity_type := "CUSTOM_STATUS"; activity_name := name;
          activity_emoji := Some emoji; activity_state := Some state |}
     = emoji_name emoji ++ " " ++ state.
Proof.
  intros Hstate. repeat split.
  unfold statusOfActivity. cbn.
  apply nonempty_true in Hstate. rewrite Hstate. reflexivity.
Qed.

Lemma presence_mapping_and_custom_status_witness :
  statusOfActivity gamingStatus = ":video_game: Playing".
Proof.
  refine (proj2 (proj2 (proj2 (proj2
    (presence_mapping_and_custom_status "Custom Status"
       {| emoji_name := ":video_game:" |} "Playing" _))))).
  discriminate.
Defined.

(* ------------------------------------------------------------------ *)
(** * Part III.  Further properties                                    *)
(* ------------------------------------------------------------------ *)

(** ** The webhook relay *)

(** Without one, the webhook relay is the same log lines and lookups
    whatever is being sent, and hands on to the next mechanism. *)
Lemma webhookRelay_without_hook (chan : Channel) :
  noWebhook chan = true ->
  exists t,
    sendsOf t = []
    /\ length (warningsOf t) = (if isTextChannel chan then 1 else 0)
    /\ forall sendThing asUser replyEmbed,
         webhookRelay chan sendThing asUser replyEmbed = (t, Ok None).
Proof.
  unfold noWebhook, webhookRelay, isTextChannel, logDebug.
  destruct (chan_class chan) as [api| | | |]; intros Hno;
    try solve [exists []; repeat split].
  destruct (obtainHook_denied api Hno) as (t & Ht & Hs & Hw).
  exists (LogDebug "Trying to send as webhook..."
          :: t ++ [LogDebug "Couldn't send as webhook"])%list.
  split; [|split].
  - cbn. rewrite sendsOf_app, Hs. reflexivity.
  - cbn. rewrite warningsOf_app, length_app, Hw. reflexivity.
  - intros. rewrite Ht. reflexivity.
Qed.

(** X7.  On a text channel whose webhook list holds a webhook named
    [_matrix], a relayed send creates no webhook and logs no warning: its
    one send goes through the first such webhook of the list, and its
    outcome is the answer to that send. *)
Theorem existing_matrix_hook_is_reused
  (app : App) (chan : Channel) (api : WebhookApi) (hooks : list Webhook)
  (hook : Webhook) (msg : Payload) (asUser : ISendingUser)
  (replyEmbed : option MessageEmbed) :
  chan_class chan = TextChannel api ->
  fetchWebhooks api = Ok hooks ->
  firstMatrixHook hooks = Some hook ->
  existsb isCreateWebhook
    (trace (sendToDiscord app chan msg (Some asUser) replyEmbed)) = false
  /\ warningsOf (trace (sendToDiscord app chan msg (Some asUser) replyEmbed))
     = []
  /\ exists content opts,
       sendsOf (trace (sendToDiscord app chan msg (Some asUser) replyEmbed))
       = [CallHookSend hook content opts]
       /\ outcome (sendToDiscord app chan msg (Some asUser) replyEmbed)
          = hookSend api hook content opts.
Proof.
  intros Hclass Hfetch Hfind.
  assert (Hhook : obtainHook api = ([CallFetchWebhooks], Ok (Some hook))).
  { rewrite obtainHook_cases, Hfetch. unfold firstMatrixHook in Hfind.
    rewrite Hfind. reflexivity. }
  rewrite (sendToDiscord_with_hook app chan api _ hook msg asUser replyEmbed
             Hclass Hhook).
  destruct (webhookSend_run api hook (toSendThing msg) asUser replyEmbed)
    as (content & opts & Hrun & _).
  rewrite Hrun. repeat split. exists content, opts. split; reflexivity.
Qed.

Lemma existing_matrix_hook_is_reused_witness :
  existsb isCreateWebhook
    (trace (sendToDiscord sampleApp textWithHook (PlainText "hi")
              (Some alice) None)) = false
  /\ exists content opts,
       sendsOf (trace (sendToDiscord sampleApp textWithHook (PlainText "hi")
                         (Some alice) None))
       = [CallHookSend matrixHook content opts].
Proof.
  destruct (existing_matrix_hook_is_reused sampleApp textWithHook workingApi
              [matrixHook] matrixHook (PlainText "hi") alice None
              eq_refl eq_refl eq_refl)
    as (Hcreate & _ & content & opts & Hsends & _).
  split; [exact Hcreate|]. exists content, opts. exact Hsends.
Defined.



(** X9.  Whatever is sent through a webhook carries the display name as
    user name, the avatar unless it is missing or empty, and [split] set;
    a text payload is the content; a file payload is the one attached
    file; an embed payload is the first embed, before the reply embed; the
    reply embed, when there is one, is always among the embeds. *)
Theorem webhook_message_options
  (app : App) (chan : Channel) (msg : Payload) (asUser : ISendingUser)
  (replyEmbed : option MessageEmbed) :
  Forall
    (fun ev =>
       match ev with
       | CallHookSend _ content opts =>
           username opts = displayname asUser
           /\ avatarURL opts = orUndefined (avatarUrl asUser)
           /\ split opts = true
           /\ match msg with
              | PlainText s =>
                  content = Some s
                  /\ embeds opts
                     = match replyEmbed with Some r => [r] | None => [] end
                  /\ files opts = []
              | RichEmbed m =>
                  content = None
                  /\ embeds opts
                     = m :: match replyEmbed with Some r => [r] | None => [] end
                  /\ files opts = []
              | FileAttachment f =>
                  content = None
                  /\ embeds opts
                     = match replyEmbed with Some r => [r] | None => [] end
                  /\ files opts
                     = [{| attachment_data := buffer f;
                           attachment_name := filename f |}]
              end
       | _ => True
       end)
    (trace (sendToDiscord app chan msg (Some asUser) replyEmbed)).
Proof.
  destruct (sendToDiscord_relay app chan msg asUser replyEmbed)
    as (logs & Hlogs & [(api & h & _ & _ & _ & Hrun)|(_ & _ & Hrun)]);
    rewrite Hrun; cbn [trace fst]; apply Forall_app; split;
    try (apply sendsOf_nil_Forall in Hlogs;
         eapply Forall_impl; [|exact Hlogs];
         intros [| | | |? ? ?|? ?]; cbn; intros; trivial; discriminate).
  - unfold webhookSend, await. destruct msg; cbn; repeat constructor.
  - destruct (clientUserBot chan).
    + destruct (embedRelay_shape app chan msg asUser replyEmbed)
        as [(e & Hthrow)|(embed & Hembed)].
      * rewrite Hthrow. repeat constructor.
      * rewrite Hembed. repeat constructor.
    + rewrite plainRelay_run. repeat constructor.
Qed.

(** X10.  A delivery logs a warning only when it has a sending identity,
    the channel is a text channel, and webhook lookup or creation is
    rejected; it then logs exactly one. *)
Theorem warnings_count
  (app : App) (chan : Channel) (msg : Payload)
  (asUser : option ISendingUser) (replyEmbed : option MessageEmbed) :
  length (warningsOf (trace (sendToDiscord app chan msg asUser replyEmbed)))
  = match asUser, chan_class chan with
    | Some _, TextChannel api => if webhookDenied api then 1 else 0
    | _, _ => 0
    end.
Proof.
  destruct asUser as [u|].
  - destruct (sendToDiscord_relay app chan msg u replyEmbed)
      as (logs & _ & [(api & h & Hc & Hd & Hw & Hrun)|(Hno & Hw & Hrun)]);
      rewrite Hrun; cbn [trace fst]; rewrite warningsOf_app, length_app.
    + rewrite Hc, Hd, Hw.
      destruct (webhookSend_run api h (toSendThing msg) u replyEmbed)
        as (content & opts & Hsend & _).
      rewrite Hsend. reflexivity.
    + rewrite Hw. unfold noWebhook, isTextChannel in *.
      assert (Hlast :
        length (warningsOf
                  (trace (if clientUserBot chan
                          then embedRelay app chan msg u replyEmbed
                          else plainRelay app chan msg u replyEmbed))) = 0).
      { destruct (clientUserBot chan).
        - destruct (embedRelay_shape app chan msg u replyEmbed)
            as [(e & Hthrow)|(embed & Hembed)].
          + rewrite Hthrow. reflexivity.
          + rewrite Hembed. reflexivity.
        - rewrite plainRelay_run. reflexivity. }
      rewrite Hlast.
      destruct (chan_class chan) as [api| | | |]; try reflexivity.
      rewrite Hno. reflexivity.
  - unfold sendToDiscord, logDebug.
    destruct (directSend_run chan (toSendThing msg) replyEmbed)
      as (extra & Hrun).
    rewrite Hrun. reflexivity.
Qed.

(** ** The embed relay and rich-embed payloads *)

(** A relayed send with no webhook to be had is the lookup, then the embed
    relay or the prefixed text. *)
Lemma sendToDiscord_without_hook (app : App) (chan : Channel) :
  noWebhook chan = true ->
  exists t,
    sendsOf t = []
    /\ forall msg asUser replyEmbed,
         sendToDiscord app chan msg (Some asUser) replyEmbed
         = ((LogDebug "Sending something to discord..." :: t
             ++ trace (if clientUserBot chan
                       then embedRelay app chan msg asUser replyEmbed
                       else plainRelay app chan msg asUser replyEmbed))%list,
            outcome (if clientUserBot chan
                     then embedRelay app chan msg asUser replyEmbed
                     else plainRelay app chan msg asUser replyEmbed)).
Proof.
  intros Hno.
  destruct (webhookRelay_without_hook chan Hno) as (t & Hs & _ & Ht).
  exists t. split; [exact Hs|].
  intros msg asUser replyEmbed. unfold sendToDiscord, logDebug.
  rewrite Ht.
  destruct (if clientUserBot chan
            then embedRelay app chan msg asUser replyEmbed
            else plainRelay app chan msg asUser replyEmbed) as [tl rl].
  reflexivity.
Qed.

(** X11.  In the embed relay (bot account, no webhook to be had), a reply
    embed with descriptive text and an author whose name is not empty adds
    exactly two fields to the embed sent, [Replying to] with the author name
    and [Reply text] with the description, in this order; with nothing to
    quote the embed has no field.  When the author name is empty the library
    refuses the field: the relay throws and nothing is sent. *)
Theorem embed_relay_reply_fields
  (app : App) (chan : Channel) (msg : Payload) (asUser : ISendingUser)
  (replyEmbed : option MessageEmbed) :
  clientUserBot chan = true ->
  noWebhook chan = true ->
  replyLacksAuthor replyEmbed = false ->
  (replyAuthorUnnamed replyEmbed = false ->
   exists embed,
     sendsOf (trace (sendToDiscord app chan msg (Some asUser) replyEmbed))
     = [CallChanSend (SendEmbed embed) None]
     /\ (forall r d a,
           replyEmbed = Some r -> description r = Some d -> d <> "" ->
           author r = Some a ->
           fields embed
           = [{| field_name := "Replying to"; field_value := author_name a |};
              {| field_name := "Reply text"; field_value := d |}])
     /\ (nothingToQuote replyEmbed -> fields embed = []))
  /\ (replyAuthorUnnamed replyEmbed = true ->
      sendsOf (trace (sendToDiscord app chan msg (Some asUser) replyEmbed))
      = []
      /\ outcome (sendToDiscord app chan msg (Some asUser) replyEmbed)
         = Err EmbedFieldValueError).
Proof.
  intros Hbot Hno Hnull.
  destruct (sendToDiscord_without_hook app chan Hno) as (t & Hs & Hrun).
  rewrite Hrun, Hbot. cbn [trace outcome fst snd]. split.
  - intros Hname.
    destruct (embedRelay_run app chan msg asUser _ Hnull Hname)
      as (embed & Hembed & _ & _ & _ & _ & Hfields).
    exists embed. rewrite Hembed. split; [|split].
    + cbn. rewrite sendsOf_app, Hs. reflexivity.
    + intros r d a -> Hd Hne Ha. rewrite Hfields. unfold replyFields.
      rewrite Hd, Ha. apply nonempty_true in Hne. rewrite Hne. reflexivity.
    + intros [->|(r & -> & Hr)]; rewrite Hfields; [reflexivity|].
      unfold replyFields. unfold truthy in Hr.
      destruct (description r) as [d|]; [|reflexivity].
      rewrite Hr. destruct (author r); reflexivity.
  - intros Hname. rewrite (embedRelay_refused _ _ _ _ _ Hname).
    cbn. rewrite sendsOf_app, Hs. split; reflexivity.
Qed.

Lemma embed_relay_reply_fields_witness :
  (exists embed,
     sendsOf (trace (sendToDiscord sampleApp botTextDenied (PlainText "hi")
                       (Some alice) (Some replyWithAuthor)))
     = [CallChanSend (SendEmbed embed) None]
     /\ fields embed
        = [{| field_name := "Replying to"; field_value := "bob" |};
           {| field_name := "Reply text"; field_value := "quoted" |}])
  /\ outcome (sendToDiscord sampleApp botTextDenied (PlainText "hi")
                (Some alice) (Some replyWithUnnamedAuthor))
     = Err EmbedFieldValueError.
Proof.
  split.
  - destruct (proj1 (embed_relay_reply_fields sampleApp botTextDenied
                       (PlainText "hi") alice (Some replyWithAuthor)
                       eq_refl eq_refl eq_refl) eq_refl)
      as (embed & Hsends & Hquote & _).
    exists embed. split; [exact Hsends|].
    refine (Hquote replyWithAuthor "quoted"
              {| author_name := "bob"; author_iconURL := None;
                 author_url := None |} eq_refl eq_refl _ eq_refl).
    discriminate.
  - exact (proj2 (proj2 (embed_relay_reply_fields sampleApp botTextDenied
                           (PlainText "hi") alice
                           (Some replyWithUnnamedAuthor)
                           eq_refl eq_refl eq_refl) eq_refl)).
Defined.

(** X12.  When no webhook is to be had, a rich-embed payload is relayed by
    its title and image alone: two embeds with the same title and the same
    image give the same run for a bot account, whatever their description,
    author and fields; for any other account it is enough that both have an
    image or both have none, the image itself is not looked at. *)
Theorem relay_of_rich_embed_reads_title_and_image_only
  (app : App) (chan : Channel) (m1 m2 : MessageEmbed)
  (asUser : ISendingUser) (replyEmbed : option MessageEmbed) :
  noWebhook chan = true ->
  title m1 = title m2 ->
  (if clientUserBot chan
   then image m1 = image m2
   else present (image m1) = present (image m2)) ->
  sendToDiscord app chan (RichEmbed m1) (Some asUser) replyEmbed
  = sendToDiscord app chan (RichEmbed m2) (Some asUser) replyEmbed.
Proof.
  intros Hno Htitle Himage.
  destruct (sendToDiscord_without_hook app chan Hno) as (t & _ & Hrun).
  rewrite !Hrun.
  destruct (clientUserBot chan).
  - unfold embedRelay. cbn [embedOfPayload]. rewrite Htitle, Himage.
    reflexivity.
  - rewrite !plainRelay_run. cbn [prefixedText]. rewrite Htitle.
    destruct (image m1), (image m2); try discriminate; reflexivity.
Qed.

Lemma relay_of_rich_embed_reads_title_and_image_only_witness :
  sendToDiscord sampleApp botTextDenied (RichEmbed catPicture) (Some alice)
    None
  = sendToDiscord sampleApp botTextDenied (RichEmbed catPictureBare)
      (Some alice) None.
Proof.
  exact (relay_of_rich_embed_reads_title_and_image_only sampleApp
           botTextDenied catPicture catPictureBare alice None
           eq_refl eq_refl eq_refl).
Defined.

(** ** The resolvers *)

Lemma getChannel_some (table : list Channel) (id : string) (chan : Channel) :
  getChannel table id = Some chan -> In chan table /\ chan_id chan = id.
Proof.
  unfold getChannel. intros H. apply find_some in H.
  destruct H as [Hin Hid]. apply String.eqb_eq in Hid. auto.
Qed.

Lemma findGuildTextChannel_some (guilds : list Guild) (id : string)
  (chan : Channel) :
  findGuildTextChannel guilds id = Some chan ->
  chan_id chan = id
  /\ isTextChannel chan = true
  /\ exists guild, In guild guilds /\ In chan (guild_channels guild).
Proof.
  induction guilds as [|guild guilds IH]; cbn; [discriminate|].
  destruct (getChannel (guild_channels guild) id) as [c|] eqn:Hget.
  - destruct (isTextChannel c) eqn:Htext.
    + intros H. injection H as <-.
      apply getChannel_some in Hget. destruct Hget as [Hin Hid].
      split; [exact Hid|]. split; [exact Htext|].
      exists guild. split; [now left|exact Hin].
    + intros H. destruct (IH H) as (Hid & Ht & g & Hg & Hin).
      split; [exact Hid|]. split; [exact Ht|].
      exists g. split; [now right|exact Hin].
  - intros H. destruct (IH H) as (Hid & Ht & g & Hg & Hin).
    split; [exact Hid|]. split; [exact Ht|].
    exists g. split; [now right|exact Hin].
Qed.

Lemma findGuildTextChannel_none (guilds : list Guild) (id : string) :
  findGuildTextChannel guilds id = None
  <-> Forall (fun guild =>
                forall c, getChannel (guild_channels guild) id = Some c ->
                          isTextChannel c = false)
        guilds.
Proof.
  induction guilds as [|guild guilds IH]; cbn.
  - split; [constructor|reflexivity].
  - destruct (getChannel (guild_channels guild) id) as [c|] eqn:Hget.
    + destruct (isTextChannel c) eqn:Htext.
      * split; [discriminate|].
        intros H. inversion H as [|? ? Hg _]; subst.
        specialize (Hg c Hget). congruence.
      * rewrite IH. split.
        -- intros H. constructor; [|exact H].
           intros c' Hc'. congruence.
        -- intros H. inversion H; assumption.
    + rewrite IH. split.
      * intros H. constructor; [|exact H]. intros c' Hc'. congruence.
      * intros H. inversion H; assumption.
Qed.

(** X13.  For an id without the DM prefix, [getDiscordChan] makes no
    network call and never throws; a channel it returns has the id asked
    for, is a text channel or a group DM, and comes from the channel cache
    or from the channel table of one of the guilds. *)
Theorem getDiscordChan_plain_id
  (client : Client) (id : string) :
  startsWith "dm-" id = false ->
  trace (getDiscordChan client id) = []
  /\ exists found,
       outcome (getDiscordChan client id) = Ok found
       /\ forall chan,
            found = Some chan ->
            chan_id chan = id
            /\ (isTextChannel chan = true \/ isGroupDMChannel chan = true)
            /\ (In chan (client_channels client)
                \/ exists guild,
                     In guild (client_guilds client)
                     /\ In chan (guild_channels guild)).
Proof.
  intros Hdm. unfold getDiscordChan. rewrite Hdm. cbn [negb].
  assert (Hscan : forall chan,
            findGuildTextChannel (client_guilds client) id = Some chan ->
            chan_id chan = id
            /\ (isTextChannel chan = true \/ isGroupDMChannel chan = true)
            /\ (In chan (client_channels client)
                \/ exists guild,
                     In guild (client_guilds client)
                     /\ In chan (guild_channels guild))).
  { intros chan H. apply findGuildTextChannel_some in H.
    destruct H as (Hid & Htext & Hguild). auto. }
  destruct (getChannel (client_channels client) id) as [c|] eqn:Hget.
  - destruct (isGroupDMChannel c || isTextChannel c) eqn:Hclass.
    + split; [reflexivity|]. eexists. split; [reflexivity|].
      intros chan H. injection H as <-.
      apply getChannel_some in Hget. destruct Hget as [Hin Hid].
      apply orb_true_iff in Hclass. tauto.
    + split; [reflexivity|]. eexists. split; [reflexivity|]. exact Hscan.
  - split; [reflexivity|]. eexists. split; [reflexivity|]. exact Hscan.
Qed.

Lemma getDiscordChan_plain_id_witness :
  trace (getDiscordChan clientWithCachedDM "lobby") = []
  /\ exists found,
       outcome (getDiscordChan clientWithCachedDM "lobby") = Ok found.
Proof.
  destruct (getDiscordChan_plain_id clientWithCachedDM "lobby" eq_refl)
    as (Htrace & found & Hfound & _).
  split; [exact Htrace|]. exists found. exact Hfound.
Defined.

(** X14.  For an id without the DM prefix, [getDiscordChan] returns [null]
    exactly when the channel cache holds no text channel or group DM under
    that id and no guild holds a text channel under it: a DM channel, a
    voice channel or a category cached under the id does not count. *)
Theorem getDiscordChan_plain_id_null
  (client : Client) (id : string) :
  startsWith "dm-" id = false ->
  (outcome (getDiscordChan client id) = Ok None
   <-> (forall chan,
          getChannel (client_channels client) id = Some chan ->
          isGroupDMChannel chan || isTextChannel chan = false)
       /\ Forall (fun guild =>
                    forall c,
                      getChannel (guild_channels guild) id = Some c ->
                      isTextChannel c = false)
            (client_guilds client)).
Proof.
  intros Hdm. unfold getDiscordChan. rewrite Hdm. cbn [negb].
  rewrite <- findGuildTextChannel_none.
  destruct (getChannel (client_channels client) id) as [c|] eqn:Hget.
  - destruct (isGroupDMChannel c || isTextChannel c) eqn:Hclass;
      cbn [outcome ret snd].
    + split; [discriminate|].
      intros [H _]. specialize (H c eq_refl). congruence.
    + split.
      * intros H. split; [|congruence].
        intros chan Hc. injection Hc as <-. exact Hclass.
      * intros [_ H]. rewrite H. reflexivity.
  - cbn [outcome ret snd]. split.
    + intros H. split; [discriminate|congruence].
    + intros [_ H]. rewrite H. reflexivity.
Qed.

Lemma getDiscordChan_plain_id_null_witness :
  outcome (getDiscordChan clientWithCachedDM "dm2") = Ok None
  /\ outcome (getDiscordChan clientWithCachedDM "voice1") = Ok None.
Proof.
  split.
  - apply (getDiscordChan_plain_id_null clientWithCachedDM "dm2" eq_refl).
    split.
    + intros chan H. injection H as <-. reflexivity.
    + repeat constructor. discriminate.
  - apply (getDiscordChan_plain_id_null clientWithCachedDM "voice1" eq_refl).
    split.
    + discriminate.
    + repeat constructor. intros c H. injection H as <-. reflexivity.
Defined.

Lemma findMember_some (guilds : list Guild) (id : string) (user : User) :
  findMember guilds id = Some user ->
  user_id user = id
  /\ exists guild,
       In guild guilds
       /\ In user (map member_user (guild_members guild)).
Proof.
  induction guilds as [|guild guilds IH]; cbn; [discriminate|].
  destruct (find _ (guild_members guild)) as [a|] eqn:Hfind.
  - intros H. injection H as <-. apply find_some in Hfind.
    destruct Hfind as [Hin Hid]. apply String.eqb_eq in Hid.
    split; [exact Hid|]. exists guild. split; [now left|].
    apply in_map. exact Hin.
  - intros H. destruct (IH H) as (Hid & g & Hg & Hin).
    split; [exact Hid|]. exists g. split; [now right|exact Hin].
Qed.

(** X15.  [getUserById] fetches from the network at most once, and only
    when no guild has a member of that id and the friends list has no such
    user; its outcome is then the answer to the fetch, a rejection
    included.  Otherwise it fetches nothing, and the user it returns has
    the id asked for and is a guild member or a friend. *)
Theorem getUserById_local_before_fetch
  (client : Client) (id : string) :
  (findMember (client_guilds client) id = None
   /\ find (fun u => (user_id u =? id)%string) (client_friends client) = None
   /\ getUserById client id = ([CallUsersFetch id], usersFetch client id))
  \/ (exists user,
        getUserById client id = ([], Ok (Some user))
        /\ user_id user = id
        /\ ((exists guild,
               In guild (client_guilds client)
               /\ In user (map member_user (guild_members guild)))
            \/ In user (client_friends client))).
Proof.
  rewrite getUserById_cases.
  destruct (findMember (client_guilds client) id) as [user|] eqn:Hmember.
  - right. exists user. apply findMember_some in Hmember.
    destruct Hmember as [Hid Hguild]. auto.
  - destruct (find _ (client_friends client)) as [user|] eqn:Hfriend.
    + right. exists user. apply find_some in Hfriend.
      destruct Hfriend as [Hin Hid]. apply String.eqb_eq in Hid. auto.
    + left. auto.
Qed.

(** X16.  For a DM-prefixed id, an error thrown while resolving the user is
    thrown by [getDiscordChan] as it is, and no direct-message channel is
    opened. *)
Theorem getDiscordChan_dm_resolver_error
  (client : Client) (id : string) (e : Error) :
  startsWith "dm-" id = true ->
  outcome (getUserById client (substringFrom 3 id)) = Err e ->
  getDiscordChan client id
  = (trace (getUserById client (substringFrom 3 id)), Err e).
Proof.
  intros Hdm Herr. unfold getDiscordChan. rewrite Hdm.
  cbn [negb String.length].
  destruct (getUserById client (substringFrom 3 id)) as [t r].
  cbn in Herr. subst r. reflexivity.
Qed.

Lemma getDiscordChan_dm_resolver_error_witness :
  getDiscordChan lonelyClient "dm-42"
  = ([CallUsersFetch "42"], Err "Unknown User").
Proof.
  exact (getDiscordChan_dm_resolver_error lonelyClient "dm-42"
           "Unknown User" eq_refl eq_refl).
Defined.

(** ** The parser callbacks and the emoji lookup *)

Lemma liftAsync_bind (E F A B : Type) (f : E -> F) (m : Async E A)
  (k : A -> Async F B) :
  bind (liftAsync f m) k
  = match outcome m with
    | Ok a => ((map f (trace m) ++ trace (k a))%list, outcome (k a))
    | Err e => (map f (trace m), Err e)
    end.
Proof.
  destruct m as [t [a|e]]; unfold liftAsync; cbn [fst snd outcome trace].
  - apply bind_ok.
  - reflexivity.
Qed.

(** X17.  The [getUser] callback of a puppet with a client first asks the
    bridge for the mxid, then resolves the user: the name it answers is the
    user name when the user resolves and the mxid itself when the resolver
    returns [null]; an error thrown by the resolver is thrown by the
    callback. *)
Theorem getUserCallback_name
  (bridge : Bridge) (puppetId : Z) (id : string) (client : Client) :
  puppetClient bridge puppetId = Some client ->
  trace (getUserCallback bridge puppetId id)
  = CallGetMxidForUser puppetId id
    :: map Resolving (trace (getUserById client id))
  /\ (forall user,
        outcome (getUserById client id) = Ok (Some user) ->
        outcome (getUserCallback bridge puppetId id)
        = Ok {| mention_mxid := getMxidForUser bridge puppetId id;
                mention_name := user_name user |})
  /\ (outcome (getUserById client id) = Ok None ->
      outcome (getUserCallback bridge puppetId id)
      = Ok {| mention_mxid := getMxidForUser bridge puppetId id;
              mention_name := getMxidForUser bridge puppetId id |})
  /\ (forall e,
        outcome (getUserById client id) = Err e ->
        outcome (getUserCallback bridge puppetId id) = Err e).
Proof.
  intros Hclient. unfold getUserCallback.
  rewrite bind_emit, Hclient, liftAsync_bind.
  destruct (outcome (getUserById client id)) as [[user|]|e];
    cbn [trace outcome fst snd]; rewrite ?app_nil_r.
  - split; [reflexivity|]. split; [|split].
    + intros user' H. injection H as <-. reflexivity.
    + discriminate.
    + discriminate.
  - split; [reflexivity|]. split; [|split].
    + discriminate.
    + reflexivity.
    + discriminate.
  - split; [reflexivity|]. split; [|split].
    + discriminate.
    + discriminate.
    + intros e' H. injection H as <-. reflexivity.
Qed.

Lemma getUserCallback_name_witness :
  outcome (getUserCallback sampleBridge 1 "43")
  = Ok {| mention_mxid := "@_discord_43:example.org";
          mention_name := "carol" |}.
Proof.
  destruct (getUserCallback_name sampleBridge 1 "43" clientKnowingCarolTwice
              eq_refl) as (_ & Hfound & _).
  exact (Hfound carol eq_refl).
Defined.

(** X18.  The [getChannel] callback of a puppet with a client answers the
    mxid of the room and, as name, the channel name when the id resolves to
    a channel that is no DM channel (the empty string when that channel has
    no name), and the mxid itself when the id resolves to a DM channel or to
    [null]; an error thrown by the resolver is thrown by the callback. *)
Theorem getChannelCallback_name
  (bridge : Bridge) (channelName : Channel -> option string)
  (puppetId : Z) (id : string) (client : Client) :
  puppetClient bridge puppetId = Some client ->
  trace (getChannelCallback bridge channelName puppetId id)
  = CallGetMxidForRoom puppetId id
    :: map Resolving (trace (getDiscordChan client id))
  /\ (forall chan,
        outcome (getDiscordChan client id) = Ok (Some chan) ->
        outcome (getChannelCallback bridge channelName puppetId id)
        = Ok {| mention_mxid := getMxidForRoom bridge puppetId id;
                mention_name :=
                  if isDMChannel chan
                  then getMxidForRoom bridge puppetId id
                  else orEmpty (channelName chan) |})
  /\ (outcome (getDiscordChan client id) = Ok None ->
      outcome (getChannelCallback bridge channelName puppetId id)
      = Ok {| mention_mxid := getMxidForRoom bridge puppetId id;
              mention_name := getMxidForRoom bridge puppetId id |})
  /\ (forall e,
        outcome (getDiscordChan client id) = Err e ->
        outcome (getChannelCallback bridge channelName puppetId id) = Err e).
Proof.
  intros Hclient. unfold getChannelCallback.
  rewrite bind_emit, Hclient, liftAsync_bind.
  destruct (outcome (getDiscordChan client id)) as [[chan|]|e];
    cbn [trace outcome fst snd].
  - destruct (isDMChannel chan) eqn:Hdm; cbn [negb trace outcome ret fst snd];
      rewrite ?app_nil_r; (split; [reflexivity|]); (split; [|split]);
      try discriminate;
      intros chan' H; injection H as <-; rewrite Hdm; reflexivity.
  - rewrite ?app_nil_r. split; [reflexivity|]. split; [|split].
    + discriminate.
    + reflexivity.
    + discriminate.
  - split; [reflexivity|]. split; [|split].
    + discriminate.
    + discriminate.
    + intros e' H. injection H as <-. reflexivity.
Qed.

Lemma getChannelCallback_name_witness :
  outcome (getChannelCallback sampleBridge sampleChannelName 1 "lobby")
  = Ok {| mention_mxid := "#_discord_lobby:example.org";
          mention_name := "lobby-talk" |}
  /\ outcome (getChannelCallback sampleBridge sampleChannelName 2 "dm-42")
     = Ok {| mention_mxid := "#_discord_dm-42:example.org";
             mention_name := "#_discord_dm-42:example.org" |}.
Proof.
  destruct (getChannelCallback_name sampleBridge sampleChannelName 1 "lobby"
              clientKnowingCarolTwice eq_refl) as (_ & Hlobby & _).
  destruct (getChannelCallback_name sampleBridge sampleChannelName 2 "dm-42"
              clientWithFriends eq_refl) as (_ & Hdm & _).
  split; [exact (Hlobby lobby eq_refl)|exact (Hdm userDM eq_refl)].
Defined.

(** X19.  For a puppet id with no puppet, either callback asks the bridge
    for the mxid and then throws on reading the client of the missing
    puppet: no resolver is run. *)
Theorem callbacks_without_puppet_throw
  (bridge : Bridge) (channelName : Channel -> option string)
  (puppetId : Z) (id : string) :
  puppetClient bridge puppetId = None ->
  getUserCallback bridge puppetId id
  = ([CallGetMxidForUser puppetId id], Err TypeError)
  /\ getChannelCallback bridge channelName puppetId id
     = ([CallGetMxidForRoom puppetId id], Err TypeError).
Proof.
  intros Hnone. unfold getUserCallback, getChannelCallback.
  rewrite !bind_emit, Hnone. split; reflexivity.
Qed.

Lemma callbacks_without_puppet_throw_witness :
  getUserCallback sampleBridge 7 "43"
  = ([CallGetMxidForUser 7 "43"], Err TypeError).
Proof.
  exact (proj1 (callbacks_without_puppet_throw sampleBridge sampleChannelName
                  7 "43" eq_refl)).
Defined.

(** X20.  An emoji returned by [getDiscordEmoji] is an emoji of the client
    whose id is the one the store records for the mxc url; [null] is
    returned exactly when the store has no row for the url or the client has
    no emoji of the recorded id. *)
Theorem getDiscordEmoji_lookup
  (bridge : Bridge) (emojis : list GuildEmoji) (mxc : string) :
  (forall emoji,
     getDiscordEmoji bridge emojis mxc = Some emoji ->
     In emoji emojis
     /\ exists row,
          getEmojiByMxc bridge mxc = Some row
          /\ emoji_id emoji = emojiId row)
  /\ (getDiscordEmoji bridge emojis mxc = None
      <-> getEmojiByMxc bridge mxc = None
          \/ exists row,
               getEmojiByMxc bridge mxc = Some row
               /\ forall emoji, In emoji emojis ->
                                emoji_id emoji <> emojiId row).
Proof.
  unfold getDiscordEmoji.
  destruct (getEmojiByMxc bridge mxc) as [row|].
  - split.
    + intros emoji H. apply find_some in H. destruct H as [Hin Hid].
      apply String.eqb_eq in Hid. split; [exact Hin|].
      exists row. auto.
    + split.
      * intros H. right. exists row. split; [reflexivity|].
        intros emoji Hin Hid.
        pose proof (find_none _ _ H emoji Hin) as Hne. cbn in Hne.
        apply String.eqb_neq in Hne. contradiction.
      * intros [H|(row' & Hrow & Hnone)]; [discriminate|].
        injection Hrow as <-.
        destruct (find _ emojis) as [emoji|] eqn:Hfind; [|reflexivity].
        apply find_some in Hfind. destruct Hfind as [Hin Hid].
        apply String.eqb_eq in Hid. exfalso. exact (Hnone emoji Hin Hid).
  - split; [discriminate|]. split; auto.
Qed.

(** ** The presence translator *)

(** After an activity that renders to something, any further activity makes
    the loop return. *)
Lemma scanActivities_returns_inside (before : list Activity)
  (a b : Activity) (after : list Activity) (statusMsg : string) :
  statusOfActivity a <> "" ->
  scanActivities (before ++ a :: b :: after) statusMsg = None.
Proof.
  intros Hne. revert statusMsg.
  induction before as [|x before IH]; intros statusMsg; cbn.
  - destruct (statusMsg =? "")%string; [|reflexivity]. cbn.
    apply String.eqb_neq in Hne. rewrite Hne. reflexivity.
  - destruct (statusMsg =? "")%string; [|reflexivity]. cbn. apply IH.
Qed.

Lemma scanActivities_blank_then_last (init : list Activity) (last : Activity) :
  Forall (fun a => statusOfActivity a = "") init ->
  scanActivities (init ++ [last]) "" = Some (statusOfActivity last).
Proof.
  intros Hblank. rewrite scanActivities_app.
  rewrite (scanActivities_all_blank init Hblank). reflexivity.
Qed.

(** An activity that is no custom status renders to its capitalised type,
    which is not empty unless the type is. *)
Lemma statusOfActivity_regular (a : Activity) :
  activity_type a <> "CUSTOM_STATUS" ->
  activity_type a <> "" ->
  statusOfActivity a <> "".
Proof.
  intros Hcustom Hty. unfold statusOfActivity.
  apply String.eqb_neq in Hcustom. rewrite Hcustom. cbn [negb].
  destruct (activity_type a) as [|c r]; [congruence|].
  cbn [toLowerCase capitalizeFirst].
  unfold join. cbn [concat].
  destruct (nonempty (activity_name a)); cbn; discriminate.
Qed.

(** X21.  With a puppet and a presence that has a user, what
    [updatePresence] sets is decided by the activities before the last one:
    when each of them renders to the empty string, the presence is set and
    then, if the last activity renders to something, the status line is set
    to what the last activity renders to; when one of them renders to
    something, nothing at all is set.  With no activity the presence alone
    is set. *)
Theorem updatePresence_by_activities
  (app : App) (puppetId : Z) (presence : Presence) (user : User) :
  hasPuppet app puppetId = true ->
  presence_user presence = Some user ->
  (activities presence = [] ->
   updatePresence app puppetId (Some presence)
   = ([SetUserPresence (getRemoteUser app puppetId user)
         (matrixPresenceOf (status presence))], Ok tt))
  /\ (forall init last,
        activities presence = (init ++ [last])%list ->
        Forall (fun a => statusOfActivity a = "") init ->
        updatePresence app puppetId (Some presence)
        = ((SetUserPresence (getRemoteUser app puppetId user)
              (matrixPresenceOf (status presence))
            :: if nonempty (statusOfActivity last)
               then [SetUserStatus (getRemoteUser app puppetId user)
                       (statusOfActivity last)]
               else [])%list,
           Ok tt))
  /\ (forall before a b after,
        activities presence = (before ++ a :: b :: after)%list ->
        statusOfActivity a <> "" ->
        updatePresence app puppetId (Some presence) = ([], Ok tt)).
Proof.
  intros Hpuppet Huser. unfold updatePresence.
  rewrite Hpuppet, Huser. cbn [negb]. split; [|split].
  - intros ->. reflexivity.
  - intros init last -> Hblank.
    rewrite (scanActivities_blank_then_last init last Hblank).
    destruct (nonempty (statusOfActivity last)); reflexivity.
  - intros before a b after -> Hne.
    rewrite (scanActivities_returns_inside before a b after "" Hne).
    reflexivity.
Qed.

Lemma updatePresence_by_activities_witness :
  updatePresence sampleApp 1
    (Some (presenceOf [blankCustomStatus; playingChess]))
  = ([SetUserPresence (getRemoteUser sampleApp 1 bob) MatrixUnavailable;
      SetUserStatus (getRemoteUser sampleApp 1 bob) "Playing Chess"], Ok tt)
  /\ updatePresence sampleApp 1
       (Some (presenceOf [blankCustomStatus; playingChess; gamingStatus]))
     = ([], Ok tt).
Proof.
  split.
  - apply (proj1 (proj2 (updatePresence_by_activities sampleApp 1
                           (presenceOf [blankCustomStatus; playingChess]) bob
                           eq_refl eq_refl))
             [blankCustomStatus] playingChess eq_refl).
    repeat constructor.
  - apply (proj2 (proj2 (updatePresence_by_activities sampleApp 1
                           (presenceOf [blankCustomStatus; playingChess;
                                        gamingStatus]) bob
                           eq_refl eq_refl))
             [blankCustomStatus] playingChess gamingStatus [] eq_refl).
    discriminate.
Defined.

(** X22.  Whenever [updatePresence] calls a setter at all there is a puppet
    and the presence has a user; the first call sets the mapped presence of
    the remote user of that puppet and user, and at most one call follows,
    which sets a status line that is not empty for the same remote user. *)
Theorem updatePresence_calls
  (app : App) (puppetId : Z) (presence : option Presence) :
  trace (updatePresence app puppetId presence) = []
  \/ exists p user,
       presence = Some p
       /\ presence_user p = Some user
       /\ hasPuppet app puppetId = true
       /\ (trace (updatePresence app puppetId presence)
           = [SetUserPresence (getRemoteUser app puppetId user)
                (matrixPresenceOf (status p))]
           \/ exists statusMsg,
                statusMsg <> ""
                /\ trace (updatePresence app puppetId presence)
                   = [SetUserPresence (getRemoteUser app puppetId user)
                        (matrixPresenceOf (status p));
                      SetUserStatus (getRemoteUser app puppetId user)
                        statusMsg]).
Proof.
  unfold updatePresence.
  destruct (hasPuppet app puppetId) eqn:Hpuppet; cbn [negb];
    [|left; reflexivity].
  destruct presence as [p|]; [|left; reflexivity].
  destruct (presence_user p) as [user|] eqn:Huser; [|left; reflexivity].
  destruct (scanActivities (activities p) "") as [line|];
    [|left; reflexivity].
  destruct (nonempty line) eqn:Hline; right;
    exists p, user; repeat split; auto.
  right. exists line. split; [|reflexivity].
  apply nonempty_true. exact Hline.
Qed.

(** X23.  With a puppet and a presence that has a user, two or more
    activities the first of which is no custom status (and has a type)
    leave presence and status line untouched. *)
Theorem updatePresence_regular_activity_first
  (app : App) (puppetId : Z) (presence : Presence) (user : User)
  (a b : Activity) (rest : list Activity) :
  hasPuppet app puppetId = true ->
  presence_user presence = Some user ->
  activities presence = a :: b :: rest ->
  activity_type a <> "CUSTOM_STATUS" ->
  activity_type a <> "" ->
  updatePresence app puppetId (Some presence) = ([], Ok tt).
Proof.
  intros Hpuppet Huser Hacts Hcustom Hty. unfold updatePresence.
  rewrite Hpuppet, Huser, Hacts. cbn [negb].
  pose proof (scanActivities_returns_inside [] a b rest ""
                (statusOfActivity_regular a Hcustom Hty)) as Hscan.
  cbn [Datatypes.app] in Hscan. rewrite Hscan. reflexivity.
Qed.

Lemma updatePresence_regular_activity_first_witness :
  updatePresence sampleApp 1
    (Some (presenceOf [listeningToRadio; blankCustomStatus]))
  = ([], Ok tt).
Proof.
  refine (updatePresence_regular_activity_first sampleApp 1
            (presenceOf [listeningToRadio; blankCustomStatus]) bob
            listeningToRadio blankCustomStatus [] eq_refl eq_refl eq_refl
            _ _); discriminate.
Defined.

(** ** The guild structure walk *)

Lemma in_announce_chan (cat chan : Channel) (chans : list Channel) :
  In (ChanCallback chan) (announce cat chans) <-> In chan chans.
Proof.
  destruct chans as [|c chans]; [reflexivity|].
  cbn [announce]. split.
  - intros [H|H]; [discriminate|].
    apply in_map_iff in H. destruct H as (x & Hx & Hin).
    injection Hx as ->. exact Hin.
  - intros H. right. apply in_map. exact H.
Qed.

Lemma filter_nil (A : Type) (f : A -> bool) (l : list A) :
  (forall x, In x l -> f x = false) -> filter f l = [].
Proof.
  induction l as [|a l IH]; intros H; [reflexivity|].
  cbn. rewrite (H a (or_introl eq_refl)). apply IH.
  intros x Hx. apply H. now right.
Qed.

Lemma flat_map_nil (A B : Type) (f : A -> list B) (l : list A) :
  (forall x, In x l -> f x = []) -> flat_map f l = [].
Proof.
  induction l as [|a l IH]; intros H; [reflexivity|].
  cbn. rewrite (H a (or_introl eq_refl)). apply IH.
  intros x Hx. apply H. now right.
Qed.

(** X24.  The walk hands a channel to the channel callback exactly when
    the channel is in the channel table of the guild, passes the allowlist,
    is a text channel the acting account is a member of, and either has no
    parent or has as parent a category of the guild that the acting account
    is a member of. *)
Theorem walk_hands_over_the_qualifying_channels
  (app : App) (puppetId : Z) (guild : Guild) (chan : Channel) :
  In (ChanCallback chan) (trace (iterateGuildStructure app puppetId guild))
  <-> In chan (guild_channels guild)
      /\ qualifies app puppetId guild chan = true
      /\ (noParent chan = true \/ underVisibleCategory guild chan).
Proof.
  rewrite iterateGuildStructure_run. cbn [trace fst].
  rewrite in_app_iff, in_map_iff, in_flat_map. split.
  - intros [(x & Hx & Hin)|(cat & Hcat & Hin)].
    + injection Hx as ->. apply filter_In in Hin. destruct Hin as [Hin Hu].
      unfold uncategorized in Hu. apply andb_true_iff in Hu.
      destruct Hu as [Hq Hp]. auto.
    + destruct (visibleCategory guild cat) eqn:Hvis; [|destruct Hin].
      apply in_announce_chan in Hin. apply filter_In in Hin.
      destruct Hin as [Hin Hq]. apply in_children in Hin.
      destruct Hin as [Hin Hp].
      split; [exact Hin|]. split; [exact Hq|].
      right. exists cat. auto.
  - intros (Hin & Hq & [Hp|(cat & Hcat & Hvis & Hp)]).
    + left. exists chan. split; [reflexivity|].
      apply filter_In. split; [exact Hin|].
      unfold uncategorized. rewrite Hq. exact Hp.
    + right. exists cat. split; [exact Hcat|]. rewrite Hvis.
      apply in_announce_chan. apply filter_In. split; [|exact Hq].
      apply in_children. auto.
Qed.

(** X25.  The walk calls in this order: first the channel callback on
    every qualifying channel without a parent, in table order; then, for
    each category of the table the acting account is a member of, in table
    order, and only if it has a qualifying child, the category callback
    followed by the channel callback on each of its qualifying children, in
    table order. *)
Theorem walk_order
  (app : App) (puppetId : Z) (guild : Guild) :
  trace (iterateGuildStructure app puppetId guild)
  = (map ChanCallback
       (filter (uncategorized app puppetId guild) (guild_channels guild))
     ++ flat_map
          (fun cat =>
             if visibleCategory guild cat
             then
               match filter (qualifies app puppetId guild)
                       (children guild cat) with
               | [] => []
               | child :: more =>
                   CatCallback cat :: map ChanCallback (child :: more)
               end
             else [])
          (guild_channels guild))%list.
Proof.
  rewrite iterateGuildStructure_run. cbn [trace fst]. f_equal.
  apply flat_map_ext. intros cat.
  destruct (visibleCategory guild cat); [|reflexivity].
  unfold announce.
  destruct (filter (qualifies app puppetId guild) (children guild cat));
    reflexivity.
Qed.

(** X26.  When the guild is not among the bridged guilds and none of its
    channels is among the bridged channels, the walk calls nothing. *)
Theorem walk_of_unbridged_guild
  (app : App) (puppetId : Z) (guild : Guild) :
  includes (getBridgedGuilds app puppetId) (guild_id guild) = false ->
  Forall (fun chan =>
            includes (getBridgedChannels app puppetId) (chan_id chan) = false)
    (guild_channels guild) ->
  trace (iterateGuildStructure app puppetId guild) = [].
Proof.
  intros Hguild Hchans. rewrite Forall_forall in Hchans.
  assert (Hq : forall chan, In chan (guild_channels guild) ->
                            qualifies app puppetId guild chan = false).
  { intros chan Hin. unfold qualifies, bridged.
    rewrite Hguild, (Hchans chan Hin). reflexivity. }
  rewrite iterateGuildStructure_run. cbn [trace fst].
  rewrite filter_nil.
  2:{ intros chan Hin. unfold uncategorized. rewrite (Hq chan Hin).
      reflexivity. }
  cbn [map Datatypes.app]. apply flat_map_nil.
  intros cat _. destruct (visibleCategory guild cat); [|reflexivity].
  rewrite filter_nil; [reflexivity|].
  intros chan Hin. apply in_children in Hin. apply Hq. tauto.
Qed.

Lemma walk_of_unbridged_guild_witness :
  trace (iterateGuildStructure unbridgedApp 1 guildTwoCategories) = [].
Proof.
  apply (walk_of_unbridged_guild unbridgedApp 1 guildTwoCategories eq_refl).
  repeat constructor.
Defined.
